(** * The simplified interview-platform workflow (autogen_simple_demo.py)

    A shallow embedding of [SimpleInterviewPlatformWorkflow] and of the
    script's [__main__] block, followed by the properties of the workflow:
    context passing between phases, phase order, failure behaviour, the
    layout of the output file and the exit behaviour of the process.

    Python statements become actions of a state-and-exception monad [M]
    over a [State] that holds the attributes of the workflow object and
    the part of the process environment the script touches: standard
    output, standard error, the files it writes, the log of remote calls
    and the number of clock readings.  Everything the script obtains from
    outside (the configuration module, the completion service, the clock,
    the file system's willingness to open a file) is a field of [Env]. *)

From Stdlib Require Import ZArith Ascii SpecFloat.
From stdpp Require Import base option list gmap strings fin_maps.

Open Scope string_scope.

(** ** Python strings *)

(** The line feed, Python's ["\n"]. *)
Definition nl : string := String (Ascii.ascii_of_nat 10) EmptyString.

(** [s * n] on a Python string. *)
Fixpoint str_mul (s : string) (n : nat) : string :=
  match n with
  | O => EmptyString
  | S n' => s +:+ str_mul s n'
  end.

(** A triple-quoted literal, given line by line. *)
Definition lines (ls : list string) : string := String.concat nl ls.

(** [sub in s] on Python strings. *)
Definition contains (sub s : string) : Prop :=
  exists pre post : string, s = pre +:+ sub +:+ post.

(** ** datetime and strftime *)

Record datetime := mkDatetime {
  year : nat; month : nat; day : nat;
  hour : nat; minute : nat; second : nat
}.

Definition digit (n : nat) : string :=
  String (Ascii.ascii_of_nat (48 + n mod 10)) EmptyString.

(** The [w] low decimal digits of [n], zero padded. *)
Fixpoint zero_padded (w n : nat) : string :=
  match w with
  | O => EmptyString
  | S w' => zero_padded w' (n / 10) +:+ digit n
  end.

(** The directives the script uses: %Y %m %d %H %M %S, for the fields of
    a datetime within their ranges (year 1 to 9999, month 1 to 12, ...):
    the year on four digits, 0001 to 9999, the others on two. *)
Definition directive (c : Ascii.ascii) (d : datetime) : string :=
  if Ascii.eqb c "Y"%char then zero_padded 4 (year d)
  else if Ascii.eqb c "m"%char then zero_padded 2 (month d)
  else if Ascii.eqb c "d"%char then zero_padded 2 (day d)
  else if Ascii.eqb c "H"%char then zero_padded 2 (hour d)
  else if Ascii.eqb c "M"%char then zero_padded 2 (minute d)
  else if Ascii.eqb c "S"%char then zero_padded 2 (second d)
  else String "%"%char (String c EmptyString).

Fixpoint strftime (fmt : string) (d : datetime) : string :=
  match fmt with
  | EmptyString => EmptyString
  | String c rest =>
      if Ascii.eqb c "%"%char then
        match rest with
        | EmptyString => String c EmptyString
        | String k rest' => directive k d +:+ strftime rest' d
        end
      else String c (strftime rest d)
  end.

(** ** The configuration module and the completion service *)

(** A Python float: a binary64 datum of IEEE 754. *)
Definition float : Type := spec_float.

(** The class attributes of [Config] that the script reads. *)
Record Config := mkConfig {
  API_KEY : string;
  API_BASE : string;
  VERBOSE : bool;
  USE_GROQ : bool;
  DEFAULT_MODEL : string;
  OPENAI_MODEL : string;
  AGENT_TEMPERATURE : float;
  AGENT_MAX_TOKENS : Z
}.

(** [OpenAI(api_key=..., base_url=...)]. *)
Record Client := mkClient { api_key : string; base_url : string }.

(** One element of [messages]: [{"role": ..., "content": ...}]. *)
Record Message := mkMessage { role : string; content : string }.

(** The keyword arguments of [chat.completions.create]. *)
Record Request := mkRequest {
  req_model : string;
  req_temperature : float;
  req_max_tokens : Z;
  req_messages : list Message
}.

(** What a call to the service comes to: the text
    [response.choices[0].message.content], a [str] as the script takes it
    to be, or an exception of class [cls] whose [str] is [msg] (transport
    or authentication failure, or a reply with no choice in it). *)
Inductive Reply :=
  | Completion (text : string)
  | Raises (cls msg : string).

Definition succeeded (r : Reply) : bool :=
  match r with Completion _ => true | Raises _ _ => false end.

(** What is raised: an instance of a subclass of [Exception], or the
    [SystemExit] that [exit(code)] raises, which is not one. *)
Inductive Raised :=
  | PyException (cls msg : string)
  | SystemExit (code : Z).

(** What the script gets from outside.  The module [autogen.config] and
    the [openai] package are not part of the file verified here: the class
    attributes of [Config], what [validate_setup] prints and returns, and
    the behaviour of the client are parameters. *)
Record Env := mkEnv {
  (** the [Config] class attributes *)
  cfg : Config;
  (** [Config.validate_setup()]: the lines it prints and its result *)
  validate_setup : list string * bool;
  (** the exception the [OpenAI] constructor raises for a key and a base
      URL, if it raises *)
  OpenAI_raises : string -> string -> option (string * string);
  (** the completion service, which has seen the earlier calls *)
  remote : Client -> list (Request * Reply) -> Request -> Reply;
  (** [datetime.now()] at the n-th reading of the clock *)
  now : nat -> datetime;
  (** the exception [open(name, 'w')] raises, if it raises *)
  open_raises : string -> option (string * string)
}.

(** ** The state *)

(** What [traceback.print_exc()] writes to standard error: the stack
    trace of the exception being handled. *)
Inductive StderrItem := Traceback (e : Raised).

Record State := mkState {
  (** [self.client], [self.outputs] and [self.model] of the one workflow
      object; they are read only after [__init__] has assigned them *)
  client : Client;
  outputs : gmap string string;
  model : string;
  (** the argument of each [print], in order *)
  stdout : list string;
  stderr : list StderrItem;
  (** the files of the working directory, by name *)
  files : gmap string string;
  (** the calls made to the completion service, with what came of them *)
  calls : list (Request * Reply);
  (** how many times the clock was read *)
  clock_reads : nat
}.

Definition set_client (c : Client) (s : State) : State :=
  mkState c (outputs s) (model s) (stdout s) (stderr s) (files s) (calls s)
    (clock_reads s).
Definition set_outputs (o : gmap string string) (s : State) : State :=
  mkState (client s) o (model s) (stdout s) (stderr s) (files s) (calls s)
    (clock_reads s).
Definition set_model (m : string) (s : State) : State :=
  mkState (client s) (outputs s) m (stdout s) (stderr s) (files s) (calls s)
    (clock_reads s).
Definition set_stdout (o : list string) (s : State) : State :=
  mkState (client s) (outputs s) (model s) o (stderr s) (files s) (calls s)
    (clock_reads s).
Definition set_stderr (e : list StderrItem) (s : State) : State :=
  mkState (client s) (outputs s) (model s) (stdout s) e (files s) (calls s)
    (clock_reads s).
Definition set_files (f : gmap string string) (s : State) : State :=
  mkState (client s) (outputs s) (model s) (stdout s) (stderr s) f (calls s)
    (clock_reads s).
Definition set_calls (c : list (Request * Reply)) (s : State) : State :=
  mkState (client s) (outputs s) (model s) (stdout s) (stderr s) (files s) c
    (clock_reads s).
Definition set_clock_reads (n : nat) (s : State) : State :=
  mkState (client s) (outputs s) (model s) (stdout s) (stderr s) (files s)
    (calls s) n.

(** The process as it starts: nothing printed, no call made, the clock
    not read, the working directory as it is found. *)
Definition boot (fs : gmap string string) : State :=
  mkState (mkClient EmptyString EmptyString) ∅ EmptyString [] [] fs [] 0.

(** ** The monad of statements *)

Inductive Res (A : Type) :=
  | Ok (a : A)
  | Raise (e : Raised).
Arguments Ok {A} a.
Arguments Raise {A} e.

Definition M (A : Type) : Type := State -> Res A * State.

Definition ret {A} (a : A) : M A := fun s => (Ok a, s).

Definition bind {A B} (m : M A) (k : A -> M B) : M B :=
  fun s =>
    match m s with
    | (Ok a, s') => k a s'
    | (Raise e, s') => (Raise e, s')
    end.

Definition raise {A} (e : Raised) : M A := fun s => (Raise e, s).

Declare Scope py_scope.
Delimit Scope py_scope with py.
Notation "'let!' x ':=' m 'in' k" := (bind m (fun x => k))
  (at level 10, x name, m at level 100, k at level 200) : py_scope.
Notation "m '>>' k" := (bind m (fun _ => k))
  (at level 100, k at level 200, right associativity) : py_scope.

(** ** The built-ins and library calls of the script *)

Section Script.

Context (env : Env).

Open Scope py_scope.

(** [print(s)] *)
Definition print (s : string) : M unit :=
  fun st => (Ok tt, set_stdout (stdout st ++ [s]) st).

(** [exit(code)] *)
Definition exit {A} (code : Z) : M A := raise (SystemExit code).

(** [datetime.now()] *)
Definition datetime_now : M datetime :=
  fun st => (Ok (now env (clock_reads st)),
             set_clock_reads (S (clock_reads st)) st).

(** [Config.validate_setup()] *)
Definition Config_validate_setup : M bool :=
  fun st => (Ok (snd (validate_setup env)),
             set_stdout (stdout st ++ fst (validate_setup env)) st).

(** [OpenAI(api_key=k, base_url=b)] *)
Definition OpenAI (k b : string) : M Client :=
  fun st =>
    match OpenAI_raises env k b with
    | Some (cls, msg) => (Raise (PyException cls msg), st)
    | None => (Ok (mkClient k b), st)
    end.

(** [self.outputs[k]], a [KeyError] when [k] is not stored; the [str] of
    a [KeyError] is the [repr] of the key. *)
Definition outputs_getitem (k : string) : M string :=
  fun st =>
    match outputs st !! k with
    | Some v => (Ok v, st)
    | None => (Raise (PyException "KeyError" ("'" +:+ k +:+ "'")), st)
    end.

(** [self.outputs[k] = v] *)
Definition outputs_setitem (k v : string) : M unit :=
  fun st => (Ok tt, set_outputs (<[k := v]> (outputs st)) st).

(** [self.client = c], [self.outputs = o], [self.model = m] *)
Definition assign_client (c : Client) : M unit :=
  fun st => (Ok tt, set_client c st).
Definition assign_outputs (o : gmap string string) : M unit :=
  fun st => (Ok tt, set_outputs o st).
Definition assign_model (m : string) : M unit :=
  fun st => (Ok tt, set_model m st).

(** [self.model] *)
Definition self_model : M string := fun st => (Ok (model st), st).

(** [self.client.chat.completions.create(...)] followed by
    [.choices[0].message.content]: the call is logged with what came of
    it, and its text is returned or its exception raised. *)
Definition chat_completions_create (mdl : string) (temperature : float)
    (max_tokens : Z) (messages : list Message) : M string :=
  fun st =>
    let req := mkRequest mdl temperature max_tokens messages in
    let rep := remote env (client st) (calls st) req in
    let st' := set_calls (calls st ++ [(req, rep)]) st in
    match rep with
    | Completion text => (Ok text, st')
    | Raises cls msg => (Raise (PyException cls msg), st')
    end.

(** [open(name, 'w')]: the file is created, or emptied when it exists. *)
Definition open_w (name : string) : M string :=
  fun st =>
    match open_raises env name with
    | Some (cls, msg) => (Raise (PyException cls msg), st)
    | None => (Ok name, set_files (<[name := EmptyString]> (files st)) st)
    end.

(** [f.write(s)] on the file opened under [name]: [s] is appended to
    what the file holds. *)
Definition f_write (name s : string) : M unit :=
  fun st => (Ok tt, set_files (alter (fun c => c +:+ s) name (files st)) st).

(** [traceback.print_exc()] in the handler of [e] *)
Definition traceback_print_exc (e : Raised) : M unit :=
  fun st => (Ok tt, set_stderr (stderr st ++ [Traceback e]) st).

(** [try: body except Exception as e: handler(e)] *)
Definition try_except_Exception {A} (body : M A)
    (handler : string -> string -> M A) : M A :=
  fun st =>
    match body st with
    | (Raise (PyException cls msg), st') => handler cls msg st'
    | r => r
    end.

(** ** SimpleInterviewPlatformWorkflow *)

Definition __init__ : M unit :=
  let! valid := Config_validate_setup in
  (if negb valid then
     print "ERROR: Configuration validation failed!" >>
     exit 1
   else ret tt) >>
  let! c := OpenAI (API_KEY (cfg env)) (API_BASE (cfg env)) in
  assign_client c >>
  (if VERBOSE (cfg env) then
     print ("Using " +:+ (if USE_GROQ (cfg env) then "Groq" else "OpenAI")
            +:+ " API with model: " +:+ DEFAULT_MODEL (cfg env))
   else ret tt) >>
  assign_outputs ∅ >>
  assign_model (OPENAI_MODEL (cfg env)).

(** The [messages] argument every phase builds. *)
Definition messages_of (system_prompt user_message : string) : list Message :=
  [mkMessage "system" system_prompt; mkMessage "user" user_message].

(** *** Phase 1: Market Research *)

Definition research_system_prompt : string := lines [
  "You are a market research analyst. Provide a brief analysis of";
  "3 competitors in AI interview platforms (HireVue, Pymetrics, Codility).";
  "List their key features and identify market gaps in 150 words." ].

Definition research_user_message : string :=
  "Analyze the current market for AI-powered interview platforms.".

Definition phase_research : M unit :=
  print (nl +:+ str_mul "=" 80) >>
  print "PHASE 1: MARKET RESEARCH" >>
  print (str_mul "=" 80) >>
  print "[ResearchAgent is analyzing the market...]" >>
  let system_prompt := research_system_prompt in
  let user_message := research_user_message in
  let! mdl := self_model in
  let! response :=
    chat_completions_create mdl (AGENT_TEMPERATURE (cfg env))
      (AGENT_MAX_TOKENS (cfg env)) (messages_of system_prompt user_message) in
  outputs_setitem "research" response >>
  print (nl +:+ "[ResearchAgent Output]") >>
  let! out := outputs_getitem "research" in
  print out.

(** *** Phase 2: Opportunity Analysis *)

Definition analysis_system_prompt : string := lines [
  "You are a product analyst. Based on the market research provided,";
  "identify 3 key market opportunities or gaps for a new AI interview platform.";
  "Be concise in 150 words." ].

Definition analysis_user_message (research : string) : string :=
  "Market research findings:" +:+ nl +:+ research +:+ nl +:+ nl +:+
  "Now identify market opportunities and gaps.".

Definition phase_analysis : M unit :=
  print (nl +:+ str_mul "=" 80) >>
  print "PHASE 2: OPPORTUNITY ANALYSIS" >>
  print (str_mul "=" 80) >>
  print "[AnalysisAgent is identifying opportunities...]" >>
  let system_prompt := analysis_system_prompt in
  let! research := outputs_getitem "research" in
  let user_message := analysis_user_message research in
  let! mdl := self_model in
  let! response :=
    chat_completions_create mdl (AGENT_TEMPERATURE (cfg env))
      (AGENT_MAX_TOKENS (cfg env)) (messages_of system_prompt user_message) in
  outputs_setitem "analysis" response >>
  print (nl +:+ "[AnalysisAgent Output]") >>
  let! out := outputs_getitem "analysis" in
  print out.

(** *** Phase 3: Product Blueprint *)

Definition blueprint_system_prompt : string := lines [
  "You are a product designer. Based on the market analysis and opportunities,";
  "create a brief product blueprint including:";
  "- Key features (3-5)";
  "- User journey (2-3 steps)";
  "Keep it concise - 150 words." ].

Definition blueprint_user_message (analysis : string) : string :=
  "Market Analysis:" +:+ nl +:+ analysis +:+ nl +:+ nl +:+
  "Create a product blueprint for our platform.".

Definition phase_blueprint : M unit :=
  print (nl +:+ str_mul "=" 80) >>
  print "PHASE 3: PRODUCT BLUEPRINT" >>
  print (str_mul "=" 80) >>
  print "[BlueprintAgent is designing the product...]" >>
  let system_prompt := blueprint_system_prompt in
  let! analysis := outputs_getitem "analysis" in
  let user_message := blueprint_user_message analysis in
  let! mdl := self_model in
  let! response :=
    chat_completions_create mdl (AGENT_TEMPERATURE (cfg env))
      (AGENT_MAX_TOKENS (cfg env)) (messages_of system_prompt user_message) in
  outputs_setitem "blueprint" response >>
  print (nl +:+ "[BlueprintAgent Output]") >>
  let! out := outputs_getitem "blueprint" in
  print out.

(** *** Phase 4: Go-to-Market Strategy *)

Definition launch_system_prompt : string := lines [
  "You are a go-to-market strategist. Using the product blueprint,";
  "outline a concise launch plan including marketing channels, launch milestones,";
  "success metrics, and partnerships in under 180 words." ].

Definition launch_user_message (blueprint : string) : string :=
  "Product Blueprint:" +:+ nl +:+ blueprint +:+ nl +:+ nl +:+
  "Create a go-to-market plan for launch.".

Definition phase_launch : M unit :=
  print (nl +:+ str_mul "=" 80) >>
  print "PHASE 4: GO-TO-MARKET STRATEGY" >>
  print (str_mul "=" 80) >>
  print "[LaunchAgent is planning the go-to-market strategy...]" >>
  let system_prompt := launch_system_prompt in
  let! blueprint := outputs_getitem "blueprint" in
  let user_message := launch_user_message blueprint in
  let! mdl := self_model in
  let! response :=
    chat_completions_create mdl (AGENT_TEMPERATURE (cfg env))
      (AGENT_MAX_TOKENS (cfg env)) (messages_of system_prompt user_message) in
  outputs_setitem "launch" response >>
  print (nl +:+ "[LaunchAgent Output]") >>
  let! out := outputs_getitem "launch" in
  print out.

(** *** Phase 5: Strategic Review *)

Definition review_system_prompt : string := lines [
  "You are a product reviewer and strategist. Review the product blueprint";
  "and provide 3 strategic recommendations for success.";
  "Be concise - 150 words." ].

Definition review_user_message (blueprint launch : string) : string :=
  "Product Blueprint:" +:+ nl +:+ blueprint +:+ nl +:+ nl +:+
  "Launch Plan:" +:+ nl +:+ launch +:+ nl +:+ nl +:+
  "Provide strategic review and recommendations.".

Definition phase_review : M unit :=
  print (nl +:+ str_mul "=" 80) >>
  print "PHASE 5: STRATEGIC REVIEW" >>
  print (str_mul "=" 80) >>
  print "[ReviewerAgent is providing recommendations...]" >>
  let system_prompt := review_system_prompt in
  let! blueprint := outputs_getitem "blueprint" in
  let! launch := outputs_getitem "launch" in
  let user_message := review_user_message blueprint launch in
  let! mdl := self_model in
  let! response :=
    chat_completions_create mdl (AGENT_TEMPERATURE (cfg env))
      (AGENT_MAX_TOKENS (cfg env)) (messages_of system_prompt user_message) in
  outputs_setitem "review" response >>
  print (nl +:+ "[ReviewerAgent Output]") >>
  let! out := outputs_getitem "review" in
  print out.

(** *** The final summary and the output file *)

Definition summary_narrative : string := lines [
  EmptyString;
  "This workflow demonstrated a 5-agent collaboration:";
  "1. ResearchAgent - Analyzed the market";
  "2. AnalysisAgent - Identified opportunities";
  "3. BlueprintAgent - Designed the product";
  "4. LaunchAgent - Built the go-to-market strategy";
  "5. ReviewerAgent - Provided strategic recommendations";
  EmptyString;
  "Each agent received context from the previous agent's output,";
  "demonstrating the sequential workflow pattern of AutoGen.";
  EmptyString ].

Definition print_summary : M unit :=
  print (nl +:+ str_mul "=" 80) >>
  print "FINAL SUMMARY" >>
  print (str_mul "=" 80) >>
  print summary_narrative >>
  (* Print full results *)
  print (nl +:+ str_mul "=" 80) >>
  print "FULL RESULTS - ALL PHASES" >>
  print (str_mul "=" 80) >>
  print (nl +:+ str_mul "-" 80) >>
  print "PHASE 1: MARKET RESEARCH (Full Output)" >>
  print (str_mul "-" 80) >>
  let! out := outputs_getitem "research" in
  print out >>
  print (nl +:+ str_mul "-" 80) >>
  print "PHASE 2: OPPORTUNITY ANALYSIS (Full Output)" >>
  print (str_mul "-" 80) >>
  let! out := outputs_getitem "analysis" in
  print out >>
  print (nl +:+ str_mul "-" 80) >>
  print "PHASE 3: PRODUCT BLUEPRINT (Full Output)" >>
  print (str_mul "-" 80) >>
  let! out := outputs_getitem "blueprint" in
  print out >>
  print (nl +:+ str_mul "-" 80) >>
  print "PHASE 4: GO-TO-MARKET STRATEGY (Full Output)" >>
  print (str_mul "-" 80) >>
  let! out := outputs_getitem "launch" in
  print out >>
  print (nl +:+ str_mul "-" 80) >>
  print "PHASE 5: STRATEGIC REVIEW (Full Output)" >>
  print (str_mul "-" 80) >>
  let! out := outputs_getitem "review" in
  print out >>
  (* Save to file *)
  let! t := datetime_now in
  let timestamp := strftime "%Y%m%d_%H%M%S" t in
  let output_file := "workflow_outputs_" +:+ timestamp +:+ ".txt" in
  let! f := open_w output_file in
  f_write f (str_mul "=" 80 +:+ nl) >>
  f_write f ("AUTOGEN INTERVIEW PLATFORM WORKFLOW - FULL RESULTS" +:+ nl) >>
  f_write f (str_mul "=" 80 +:+ nl) >>
  let! t := datetime_now in
  f_write f ("Generated: " +:+ strftime "%Y-%m-%d %H:%M:%S" t +:+ nl) >>
  let! mdl := self_model in
  f_write f ("Model: " +:+ mdl +:+ nl +:+ nl) >>
  f_write f (nl +:+ str_mul "-" 80 +:+ nl) >>
  f_write f ("PHASE 1: MARKET RESEARCH" +:+ nl) >>
  f_write f (str_mul "-" 80 +:+ nl) >>
  let! out := outputs_getitem "research" in
  f_write f (out +:+ nl) >>
  f_write f (nl +:+ str_mul "-" 80 +:+ nl) >>
  f_write f ("PHASE 2: OPPORTUNITY ANALYSIS" +:+ nl) >>
  f_write f (str_mul "-" 80 +:+ nl) >>
  let! out := outputs_getitem "analysis" in
  f_write f (out +:+ nl) >>
  f_write f (nl +:+ str_mul "-" 80 +:+ nl) >>
  f_write f ("PHASE 3: PRODUCT BLUEPRINT" +:+ nl) >>
  f_write f (str_mul "-" 80 +:+ nl) >>
  let! out := outputs_getitem "blueprint" in
  f_write f (out +:+ nl) >>
  f_write f (nl +:+ str_mul "-" 80 +:+ nl) >>
  f_write f ("PHASE 4: GO-TO-MARKET STRATEGY" +:+ nl) >>
  f_write f (str_mul "-" 80 +:+ nl) >>
  let! out := outputs_getitem "launch" in
  f_write f (out +:+ nl) >>
  f_write f (nl +:+ str_mul "-" 80 +:+ nl) >>
  f_write f ("PHASE 5: STRATEGIC REVIEW" +:+ nl) >>
  f_write f (str_mul "-" 80 +:+ nl) >>
  let! out := outputs_getitem "review" in
  f_write f (out +:+ nl) >>
  print (nl +:+ "💾 Full results saved to: " +:+ output_file) >>
  let! t := datetime_now in
  print (nl +:+ "End Time: " +:+ strftime "%Y-%m-%d %H:%M:%S" t) >>
  print (str_mul "=" 80).

(** *** run *)

Definition run : M unit :=
  print (nl +:+ str_mul "=" 80) >>
  print "AUTOGEN INTERVIEW PLATFORM WORKFLOW - SIMPLIFIED DEMO" >>
  print (str_mul "=" 80) >>
  let! t := datetime_now in
  print ("Start Time: " +:+ strftime "%Y-%m-%d %H:%M:%S" t) >>
  let! mdl := self_model in
  print ("Model: " +:+ mdl +:+ nl) >>
  (* Phase 1: Research *)
  phase_research >>
  (* Phase 2: Analysis *)
  phase_analysis >>
  (* Phase 3: Blueprint *)
  phase_blueprint >>
  (* Phase 4: Go-to-Market Launch Plan *)
  phase_launch >>
  (* Phase 5: Review *)
  phase_review >>
  (* Summary *)
  print_summary.

(** ** The script *)

Definition confirmation : string :=
  nl +:+ "✅ Workflow completed successfully!".

Definition error_message (msg : string) : string :=
  nl +:+ "❌ Error during workflow execution: " +:+ msg.

Definition troubleshooting : list string := [
  nl +:+ "Troubleshooting:";
  "1. Verify OPENAI_API_KEY is set in parent directory .env (../.env)";
  "2. Check your API key has sufficient credits";
  "3. Verify internet connection";
  "4. Ensure config.py can access shared_config from parent directory";
  "5. Check OpenAI API status at https://status.openai.com" ].

(** The body of [try:]. *)
Definition try_body : M unit :=
  __init__ >>
  run >>
  print confirmation.

(** The body of [except Exception as e:], for [e] of class [cls] with
    [str(e) = msg]. *)
Definition except_body (cls msg : string) : M unit :=
  print (error_message msg) >>
  print (nl +:+ "Troubleshooting:") >>
  print "1. Verify OPENAI_API_KEY is set in parent directory .env (../.env)" >>
  print "2. Check your API key has sufficient credits" >>
  print "3. Verify internet connection" >>
  print "4. Ensure config.py can access shared_config from parent directory" >>
  print "5. Check OpenAI API status at https://status.openai.com" >>
  traceback_print_exc (PyException cls msg).

(** The body of [if __name__ == "__main__":]. *)
Definition main_block : M unit :=
  try_except_Exception try_body except_body.

(** The interpreter running the script: the exit status of the process
    and the state it leaves.  Falling off the end of the script gives
    status 0; an uncaught [SystemExit(code)] gives [code] and prints
    nothing; any other uncaught exception gives 1 after its stack trace. *)
Definition python (fs : gmap string string) : Z * State :=
  match main_block (boot fs) with
  | (Ok _, st) => (0%Z, st)
  | (Raise (SystemExit code), st) => (code, st)
  | (Raise e, st) => (1%Z, set_stderr (stderr st ++ [Traceback e]) st)
  end.

End Script.

(** * Sample environments *)

(** A configuration (its temperature is 0.5, that is 2^52 * 2^-53), a
    clock and a file system that never refuses. *)
Definition sample_cfg : Config :=
  mkConfig "sk-test" "https://api.example.org/v1" true false "gpt-4o-mini"
    "gpt-4o-mini" (S754_finite false 4503599627370496 (-53)) 500.

Definition sample_now (n : nat) : datetime :=
  mkDatetime 2025 3 7 9 5 (2 * n).

(** The service stubbed to answer R, A, B, L, V to the five calls. *)
Definition stub_remote (c : Client) (log : list (Request * Reply))
    (req : Request) : Reply :=
  match length log with
  | 0 => Completion "R"
  | 1 => Completion "A"
  | 2 => Completion "B"
  | 3 => Completion "L"
  | _ => Completion "V"
  end.

Definition stub_env : Env :=
  mkEnv sample_cfg ([], true) (fun _ _ => None) stub_remote sample_now
    (fun _ => None).

(** The service failing at the third call. *)
Definition flaky_remote (c : Client) (log : list (Request * Reply))
    (req : Request) : Reply :=
  match length log with
  | 0 => Completion "R"
  | 1 => Completion "A"
  | _ => Raises "APIConnectionError" "Connection error."
  end.

Definition flaky_env : Env :=
  mkEnv sample_cfg ([], true) (fun _ _ => None) flaky_remote sample_now
    (fun _ => None).

(** A configuration that does not validate. *)
Definition invalid_env : Env :=
  mkEnv sample_cfg (["OPENAI_API_KEY is not set"], false) (fun _ _ => None)
    stub_remote sample_now (fun _ => None).

(** The requests of the analysis and blueprint phases in the stubbed
    runs, where research returned R and analysis A. *)
Definition sample_analysis_request : Request :=
  mkRequest "gpt-4o-mini" (AGENT_TEMPERATURE sample_cfg) 500
    [mkMessage "system" analysis_system_prompt;
     mkMessage "user" (analysis_user_message "R")].

Definition sample_blueprint_request : Request :=
  mkRequest "gpt-4o-mini" (AGENT_TEMPERATURE sample_cfg) 500
    [mkMessage "system" blueprint_system_prompt;
     mkMessage "user" (blueprint_user_message "A")].

(** The file system the sample runs start from: no file. *)
Definition no_files : gmap string string := ∅.

(** The stamp YYYYMMDD_HHMMSS of a moment. *)
Definition stamp (t : datetime) : string :=
  zero_padded 4 (year t) +:+ zero_padded 2 (month t) +:+
  zero_padded 2 (day t) +:+ "_" +:+
  zero_padded 2 (hour t) +:+ zero_padded 2 (minute t) +:+
  zero_padded 2 (second t).

(** The phases. *)
Inductive Phase := Research | Analysis | Blueprint | Launch | Review.

Definition phase_name (p : Phase) : string :=
  match p with
  | Research => "research"
  | Analysis => "analysis"
  | Blueprint => "blueprint"
  | Launch => "launch"
  | Review => "review"
  end.

Definition all_phases : list Phase :=
  [Research; Analysis; Blueprint; Launch; Review].

(** The outputs a phase reads before its call, in the order it reads
    them. *)
Definition phase_needs (p : Phase) : list string :=
  match p with
  | Research => []
  | Analysis => ["research"]
  | Blueprint => ["analysis"]
  | Launch => ["blueprint"]
  | Review => ["blueprint"; "launch"]
  end.

(** The first of some keys under which a mapping holds nothing. *)
Fixpoint first_missing (o : gmap string string) (ks : list string)
    : option string :=
  match ks with
  | [] => None
  | k :: ks' =>
      match o !! k with
      | None => Some k
      | Some _ => first_missing o ks'
      end
  end.

(** The [str] of [KeyError(k)]. *)
Definition key_error (k : string) : Raised :=
  PyException "KeyError" ("'" +:+ k +:+ "'").

(** The fields of a datetime within their ranges. *)
Definition valid_datetime (t : datetime) : Prop :=
  1 <= year t < 10 ^ 4 /\ 1 <= month t <= 12 /\ 1 <= day t <= 31 /\
  hour t < 24 /\ minute t < 60 /\ second t < 60.

(** A file system that refuses to open files for writing, and a client
    that cannot be built. *)
Definition readonly_env : Env :=
  mkEnv sample_cfg ([], true) (fun _ _ => None) stub_remote sample_now
    (fun _ => Some ("PermissionError", "[Errno 13] Permission denied")).

Definition no_client_env : Env :=
  mkEnv sample_cfg ([], true)
    (fun _ _ => Some ("OpenAIError", "The api_key client option must be set"))
    stub_remote sample_now (fun _ => None).

(** A state of the workflow object holding the outputs of the first two
    phases only, and one holding all five. *)
Definition two_outputs : State :=
  set_outputs (<["analysis" := "A"]> (<["research" := "R"]> ∅))
    (boot no_files).

Definition five_outputs : State :=
  set_model "gpt-4o-mini"
    (set_outputs
       (<["review" := "V"]>
          (<["launch" := "L"]>
             (<["blueprint" := "B"]>
                (<["analysis" := "A"]> (<["research" := "R"]> ∅)))))
       (boot (<["notes.txt" := "kept"]> no_files))).

(** A state that stores the blueprint alone. *)
Definition blueprint_only : State :=
  set_outputs (<["blueprint" := "B"]> ∅) five_outputs.

(** * The course of a run

    Definitions used to state what the script does: the state each step
    leaves, the requests sent, the layout of the output file, and the ways
    a run can go. *)

Section Workflow.

Context (env : Env) (fs : gmap string string).

(** ** The phases *)

(** The request a phase sends. *)
Definition request_of (st : State) (system_prompt user_message : string)
    : Request :=
  mkRequest (model st) (AGENT_TEMPERATURE (cfg env))
    (AGENT_MAX_TOKENS (cfg env)) (messages_of system_prompt user_message).

(** What a phase prints before its call. *)
Definition phase_banner (title progress : string) : list string :=
  [nl +:+ str_mul "=" 80; title; str_mul "=" 80; progress].

(** The state a phase leaves when its call returned [text] ... *)
Definition phase_done (title progress header key : string) (req : Request)
    (text : string) (st : State) : State :=
  set_stdout
    (stdout st ++ phase_banner title progress ++ [nl +:+ header; text])
    (set_outputs (<[key := text]> (outputs st))
       (set_calls (calls st ++ [(req, Completion text)]) st)).

(** ... and when it raised. *)
Definition phase_failed (title progress : string) (req : Request)
    (cls msg : string) (st : State) : State :=
  set_stdout (stdout st ++ phase_banner title progress)
    (set_calls (calls st ++ [(req, Raises cls msg)]) st).

(** What a phase that reaches its call comes to. *)
Definition phase_result (title progress header key : string) (req : Request)
    (st : State) : Res unit * State :=
  match remote env (client st) (calls st) req with
  | Completion text =>
      (Ok tt, phase_done title progress header key req text st)
  | Raises cls msg =>
      (Raise (PyException cls msg), phase_failed title progress req cls msg st)
  end.

(** A phase whose predecessor's output is missing stops at the lookup. *)
Definition phase_keyerror (title progress key : string) (st : State)
    : Res unit * State :=
  (Raise (PyException "KeyError" ("'" +:+ key +:+ "'")),
   set_stdout (stdout st ++ phase_banner title progress) st).

(** ** Initialisation *)

(** The line printed when [Config.VERBOSE] is set. *)
Definition using_line : string :=
  "Using " +:+ (if USE_GROQ (cfg env) then "Groq" else "OpenAI")
  +:+ " API with model: " +:+ DEFAULT_MODEL (cfg env).

(** The state [__init__] leaves when it returns. *)
Definition init_done (st : State) : State :=
  set_model (OPENAI_MODEL (cfg env))
    (set_outputs ∅
       (set_stdout
          (stdout st ++ fst (validate_setup env)
           ++ (if VERBOSE (cfg env) then [using_line] else []))
          (set_client (mkClient (API_KEY (cfg env)) (API_BASE (cfg env)))
             st))).

(** The state it leaves when the configuration is not valid. *)
Definition init_invalid (st : State) : State :=
  set_stdout
    (stdout st ++ fst (validate_setup env)
     ++ ["ERROR: Configuration validation failed!"]) st.

(** ** run *)

(** The state in which phase 1 starts. *)
Definition run_prologue (st : State) : State :=
  set_stdout
    (stdout st ++
     [nl +:+ str_mul "=" 80;
      "AUTOGEN INTERVIEW PLATFORM WORKFLOW - SIMPLIFIED DEMO";
      str_mul "=" 80;
      "Start Time: " +:+ strftime "%Y-%m-%d %H:%M:%S" (now env (clock_reads st));
      "Model: " +:+ model st +:+ nl])
    (set_clock_reads (S (clock_reads st)) st).

(** What [run] does after its prologue. *)
Definition phases_and_summary : M unit :=
  (phase_research env >> phase_analysis env >> phase_blueprint env >>
   phase_launch env >> phase_review env >> print_summary env)%py.

(** ** The final summary *)

(** The name of the output file for the clock reading taken for it. *)
Definition output_file_name (t : datetime) : string :=
  "workflow_outputs_" +:+ strftime "%Y%m%d_%H%M%S" t +:+ ".txt".

(** The lines printed for a phase in the full results. *)
Definition full_output (title body : string) : list string :=
  [nl +:+ str_mul "-" 80; title; str_mul "-" 80; body].

(** What [print_summary] prints before it opens the file. *)
Definition summary_console (r a b l v : string) : list string :=
  [nl +:+ str_mul "=" 80; "FINAL SUMMARY"; str_mul "=" 80; summary_narrative;
   nl +:+ str_mul "=" 80; "FULL RESULTS - ALL PHASES"; str_mul "=" 80]
  ++ full_output "PHASE 1: MARKET RESEARCH (Full Output)" r
  ++ full_output "PHASE 2: OPPORTUNITY ANALYSIS (Full Output)" a
  ++ full_output "PHASE 3: PRODUCT BLUEPRINT (Full Output)" b
  ++ full_output "PHASE 4: GO-TO-MARKET STRATEGY (Full Output)" l
  ++ full_output "PHASE 5: STRATEGIC REVIEW (Full Output)" v.

(** The layout of the output file: a header with the title, the time of
    generation and the model name ... *)
Definition file_header (generated mdl : string) : string :=
  str_mul "=" 80 +:+ nl +:+
  "AUTOGEN INTERVIEW PLATFORM WORKFLOW - FULL RESULTS" +:+ nl +:+
  str_mul "=" 80 +:+ nl +:+
  "Generated: " +:+ generated +:+ nl +:+
  "Model: " +:+ mdl +:+ nl +:+ nl.

(** ... and a section per phase: an empty line, a line of dashes, the
    title, a line of dashes, the text. *)
Definition file_section (title body : string) : string :=
  nl +:+ str_mul "-" 80 +:+ nl +:+
  title +:+ nl +:+
  str_mul "-" 80 +:+ nl +:+
  body +:+ nl.

(** The titles of the sections of the output file, in phase order. *)
Definition phase_titles : list string :=
  ["PHASE 1: MARKET RESEARCH"; "PHASE 2: OPPORTUNITY ANALYSIS";
   "PHASE 3: PRODUCT BLUEPRINT"; "PHASE 4: GO-TO-MARKET STRATEGY";
   "PHASE 5: STRATEGIC REVIEW"].

(** The sections of the output file for the texts of the phases. *)
Definition file_sections (bodies : list string) : string :=
  String.concat EmptyString (zip_with file_section phase_titles bodies).

(** The state [print_summary] leaves when the file cannot be opened ... *)
Definition summary_failed (r a b l v : string) (st : State) : State :=
  set_stdout (stdout st ++ summary_console r a b l v)
    (set_clock_reads (S (clock_reads st)) st).

(** ... and when it returns: the clock was read for the file name, for the
    header and for the end time. *)
Definition summary_done (r a b l v : string) (st : State) : State :=
  let n := clock_reads st in
  let name := output_file_name (now env n) in
  set_stdout
    (stdout st ++ summary_console r a b l v ++
     [nl +:+ "💾 Full results saved to: " +:+ name;
      nl +:+ "End Time: " +:+ strftime "%Y-%m-%d %H:%M:%S" (now env (S (S n)));
      str_mul "=" 80])
    (set_files
       (<[name :=
            file_header (strftime "%Y-%m-%d %H:%M:%S" (now env (S n)))
              (model st)
            +:+ file_sections [r; a; b; l; v]]> (files st))
       (set_clock_reads (S (S (S n))) st)).

(** ** The handler *)

(** The state the handler leaves: the error message, the troubleshooting
    heading and its five items on standard output, the stack trace on
    standard error. *)
Definition handled (cls msg : string) (st : State) : State :=
  set_stderr (stderr st ++ [Traceback (PyException cls msg)])
    (set_stdout (stdout st ++ error_message msg :: troubleshooting) st).

(** ** The states along a run *)

(** The state after [__init__] and the prologue of [run]. *)
Definition st_start : State := run_prologue (init_done (boot fs)).

(** The request of each phase and the state the phase leaves, given the
    texts received so far. *)
Definition req_research : Request :=
  request_of st_start research_system_prompt research_user_message.
Definition st_research (r : string) : State :=
  phase_done "PHASE 1: MARKET RESEARCH"
    "[ResearchAgent is analyzing the market...]" "[ResearchAgent Output]"
    "research" req_research r st_start.

Definition req_analysis (r : string) : Request :=
  request_of (st_research r) analysis_system_prompt (analysis_user_message r).
Definition st_analysis (r a : string) : State :=
  phase_done "PHASE 2: OPPORTUNITY ANALYSIS"
    "[AnalysisAgent is identifying opportunities...]"
    "[AnalysisAgent Output]" "analysis" (req_analysis r) a (st_research r).

Definition req_blueprint (r a : string) : Request :=
  request_of (st_analysis r a) blueprint_system_prompt
    (blueprint_user_message a).
Definition st_blueprint (r a b : string) : State :=
  phase_done "PHASE 3: PRODUCT BLUEPRINT"
    "[BlueprintAgent is designing the product...]"
    "[BlueprintAgent Output]" "blueprint" (req_blueprint r a) b
    (st_analysis r a).

Definition req_launch (r a b : string) : Request :=
  request_of (st_blueprint r a b) launch_system_prompt
    (launch_user_message b).
Definition st_launch (r a b l : string) : State :=
  phase_done "PHASE 4: GO-TO-MARKET STRATEGY"
    "[LaunchAgent is planning the go-to-market strategy...]"
    "[LaunchAgent Output]" "launch" (req_launch r a b) l (st_blueprint r a b).

Definition req_review (r a b l : string) : Request :=
  request_of (st_launch r a b l) review_system_prompt
    (review_user_message b l).
Definition st_review (r a b l v : string) : State :=
  phase_done "PHASE 5: STRATEGIC REVIEW"
    "[ReviewerAgent is providing recommendations...]"
    "[ReviewerAgent Output]" "review" (req_review r a b l) v
    (st_launch r a b l).

(** The service's answer to a request made in a state. *)
Definition answer (st : State) (req : Request) : Reply :=
  remote env (client st) (calls st) req.

(** The configuration is valid and the client was built. *)
Definition started : Prop :=
  snd (validate_setup env) = true /\
  OpenAI_raises env (API_KEY (cfg env)) (API_BASE (cfg env)) = None.

(** The calls of the first phases returned these texts. *)
Definition got_research (r : string) : Prop :=
  started /\ answer st_start req_research = Completion r.
Definition got_analysis (r a : string) : Prop :=
  got_research r /\ answer (st_research r) (req_analysis r) = Completion a.
Definition got_blueprint (r a b : string) : Prop :=
  got_analysis r a /\
  answer (st_analysis r a) (req_blueprint r a) = Completion b.
Definition got_launch (r a b l : string) : Prop :=
  got_blueprint r a b /\
  answer (st_blueprint r a b) (req_launch r a b) = Completion l.
Definition got_review (r a b l v : string) : Prop :=
  got_launch r a b l /\
  answer (st_launch r a b l) (req_review r a b l) = Completion v.

(** The name under which the output file is opened. *)
Definition file_name (r a b l v : string) : string :=
  output_file_name (now env (clock_reads (st_review r a b l v))).

(** The ways a run of the script can go, with the exit status of the
    process and the state it leaves. *)
Inductive Course : Res unit * State -> Prop :=
  | course_invalid :
      snd (validate_setup env) = false ->
      Course (Raise (SystemExit 1), init_invalid (boot fs))
  | course_no_client cls msg :
      snd (validate_setup env) = true ->
      OpenAI_raises env (API_KEY (cfg env)) (API_BASE (cfg env))
      = Some (cls, msg) ->
      Course (Raise (PyException cls msg),
              set_stdout (stdout (boot fs) ++ fst (validate_setup env))
                (boot fs))
  | course_research_raised cls msg :
      started ->
      answer st_start req_research = Raises cls msg ->
      Course (Raise (PyException cls msg),
              phase_failed "PHASE 1: MARKET RESEARCH"
                "[ResearchAgent is analyzing the market...]"
                req_research cls msg st_start)
  | course_analysis_raised r cls msg :
      got_research r ->
      answer (st_research r) (req_analysis r) = Raises cls msg ->
      Course (Raise (PyException cls msg),
              phase_failed "PHASE 2: OPPORTUNITY ANALYSIS"
                "[AnalysisAgent is identifying opportunities...]"
                (req_analysis r) cls msg (st_research r))
  | course_blueprint_raised r a cls msg :
      got_analysis r a ->
      answer (st_analysis r a) (req_blueprint r a) = Raises cls msg ->
      Course (Raise (PyException cls msg),
              phase_failed "PHASE 3: PRODUCT BLUEPRINT"
                "[BlueprintAgent is designing the product...]"
                (req_blueprint r a) cls msg (st_analysis r a))
  | course_launch_raised r a b cls msg :
      got_blueprint r a b ->
      answer (st_blueprint r a b) (req_launch r a b) = Raises cls msg ->
      Course (Raise (PyException cls msg),
              phase_failed "PHASE 4: GO-TO-MARKET STRATEGY"
                "[LaunchAgent is planning the go-to-market strategy...]"
                (req_launch r a b) cls msg (st_blueprint r a b))
  | course_review_raised r a b l cls msg :
      got_launch r a b l ->
      answer (st_launch r a b l) (req_review r a b l) = Raises cls msg ->
      Course (Raise (PyException cls msg),
              phase_failed "PHASE 5: STRATEGIC REVIEW"
                "[ReviewerAgent is providing recommendations...]"
                (req_review r a b l) cls msg (st_launch r a b l))
  | course_no_file r a b l v cls msg :
      got_review r a b l v ->
      open_raises env (file_name r a b l v) = Some (cls, msg) ->
      Course (Raise (PyException cls msg),
              summary_failed r a b l v (st_review r a b l v))
  | course_completed r a b l v :
      got_review r a b l v ->
      open_raises env (file_name r a b l v) = None ->
      Course (Ok tt,
              let st := summary_done r a b l v (st_review r a b l v) in
              set_stdout (stdout st ++ [confirmation]) st).

(** What the interpreter makes of the outcome of the [try] body: the
    handler runs on an [Exception], [SystemExit] ends the process with its
    code. *)
Definition finish (outcome : Res unit * State) : Z * State :=
  match outcome with
  | (Ok _, st) => (0%Z, st)
  | (Raise (PyException cls msg), st) => (0%Z, handled cls msg st)
  | (Raise (SystemExit code), st) => (code, st)
  end.

(** ** Observations on a run *)

(** The exit status of the process and the state it leaves. *)
Definition exit_status : Z := fst (python env fs).
Definition final : State := snd (python env fs).

(** The text of the system message and of the user message of a request. *)
Definition system_content (req : Request) : option string :=
  content <$> req_messages req !! 0.
Definition user_content (req : Request) : option string :=
  content <$> req_messages req !! 1.

(** The phase names, in the order of [run]. *)
Definition phase_names : list string :=
  ["research"; "analysis"; "blueprint"; "launch"; "review"].

(** The system prompts, in the same order. *)
Definition system_prompts : list string :=
  [research_system_prompt; analysis_system_prompt; blueprint_system_prompt;
   launch_system_prompt; review_system_prompt].

(** The texts stored under the phase names, in phase order. *)
Definition stored_texts (st : State) : list string :=
  omap (fun k => outputs st !! k) phase_names.

(** A request as every phase is to send it: the configured model,
    temperature and token limit, and a system message followed by a user
    message. *)
Definition well_formed (req : Request) : Prop :=
  req_model req = OPENAI_MODEL (cfg env) /\
  req_temperature req = AGENT_TEMPERATURE (cfg env) /\
  req_max_tokens req = AGENT_MAX_TOKENS (cfg env) /\
  role <$> req_messages req = ["system"; "user"].

(** The method of a phase, and the methods of some phases called in turn
    as [run] calls them. *)
Definition phase_method (p : Phase) : M unit :=
  match p with
  | Research => phase_research env
  | Analysis => phase_analysis env
  | Blueprint => phase_blueprint env
  | Launch => phase_launch env
  | Review => phase_review env
  end.

Fixpoint call_in_turn (ps : list Phase) : M unit :=
  match ps with
  | [] => ret tt
  | p :: ps' => bind (phase_method p) (fun _ => call_in_turn ps')
  end.

(** The exit behaviour as the specification words it: a confirmation and
    status 0 when the [try] body returns; the error message, the
    troubleshooting list, the stack trace and a status other than 0 when it
    raises an [Exception]. *)
Definition exit_behaviour_as_specified : Prop :=
  match try_body env (boot fs) with
  | (Ok _, _) => last (stdout final) = Some confirmation /\ exit_status = 0%Z
  | (Raise (PyException cls msg), _) =>
      (exists pre,
         stdout final = (pre ++ error_message msg :: troubleshooting)%list) /\
      stderr final = [Traceback (PyException cls msg)] /\
      exit_status <> 0%Z
  | (Raise (SystemExit _), _) => True
  end.

(** * Execution lemmas *)

(** ** Strings and lists *)

Lemma append_cons x (a b : string) : String x a +:+ b = String x (a +:+ b).
Proof. reflexivity. Qed.

Lemma append_assoc (a b c : string) : (a +:+ b) +:+ c = a +:+ b +:+ c.
Proof.
  induction a as [|x a IH]; [reflexivity|].
  rewrite !append_cons. f_equal. exact IH.
Qed.

Lemma length_append (a b : string) :
  String.length (a +:+ b) = String.length a + String.length b.
Proof.
  induction a as [|x a IH]; [reflexivity|].
  rewrite append_cons. cbn [String.length]. rewrite IH. reflexivity.
Qed.

Lemma contains_analysis r : contains r (analysis_user_message r).
Proof.
  exists ("Market research findings:" +:+ nl),
    (nl +:+ nl +:+ "Now identify market opportunities and gaps.").
  unfold analysis_user_message. rewrite !append_assoc. reflexivity.
Qed.

Lemma contains_blueprint a : contains a (blueprint_user_message a).
Proof.
  exists ("Market Analysis:" +:+ nl),
    (nl +:+ nl +:+ "Create a product blueprint for our platform.").
  unfold blueprint_user_message. rewrite !append_assoc. reflexivity.
Qed.

Lemma contains_launch b : contains b (launch_user_message b).
Proof.
  exists ("Product Blueprint:" +:+ nl),
    (nl +:+ nl +:+ "Create a go-to-market plan for launch.").
  unfold launch_user_message. rewrite !append_assoc. reflexivity.
Qed.

Lemma contains_review_blueprint b l : contains b (review_user_message b l).
Proof.
  exists ("Product Blueprint:" +:+ nl),
    (nl +:+ nl +:+ "Launch Plan:" +:+ nl +:+ l +:+ nl +:+ nl +:+
     "Provide strategic review and recommendations.").
  unfold review_user_message. rewrite !append_assoc. reflexivity.
Qed.

Lemma contains_review_launch b l : contains l (review_user_message b l).
Proof.
  unfold review_user_message.
  exists ("Product Blueprint:" +:+ nl +:+ b +:+ nl +:+ nl +:+
          "Launch Plan:" +:+ nl), (nl +:+ nl +:+
          "Provide strategic review and recommendations.").
  rewrite !append_assoc. reflexivity.
Qed.

Lemma length_zero_padded (w n : nat) : String.length (zero_padded w n) = w.
Proof.
  revert n. induction w as [|w IH]; intros n; [reflexivity|].
  cbn [zero_padded]. rewrite length_append, IH. unfold digit.
  cbn [String.length]. lia.
Qed.

(** ** The monad's plumbing *)

(** Reduction of the monad's plumbing and of the state's accessors, and
    nothing else: texts and maps stay folded. *)
Ltac mred :=
  lazy beta iota zeta delta
    [bind ret raise exit print datetime_now Config_validate_setup OpenAI
     outputs_getitem outputs_setitem self_model assign_client assign_outputs
     assign_model chat_completions_create open_w f_write traceback_print_exc
     try_except_Exception
     set_client set_outputs set_model set_stdout set_stderr set_files
     set_calls set_clock_reads
     client outputs model stdout stderr files calls clock_reads].

(** The fields of a state in place of the state. *)
Ltac fields st :=
  destruct st;
  cbn [client outputs model stdout stderr files calls clock_reads] in *.

(** ** The phases *)

Ltac phase_eq :=
  unfold phase_result, phase_done, phase_failed, phase_keyerror, phase_banner,
    request_of;
  mred;
  repeat (match goal with
          | H : ?m !! ?k = _ |- context [?m !! ?k] => rewrite H
          end; mred);
  try match goal with
  | |- context [remote ?e ?c ?h ?r] => destruct (remote e c h r)
  end;
  mred; rewrite ?lookup_insert_eq; mred;
  rewrite <- ?app_assoc; reflexivity.

Lemma phase_research_eq st :
  phase_research env st
  = phase_result "PHASE 1: MARKET RESEARCH"
      "[ResearchAgent is analyzing the market...]" "[ResearchAgent Output]"
      "research"
      (request_of st research_system_prompt research_user_message) st.
Proof. fields st. unfold phase_research. phase_eq. Qed.

Lemma phase_analysis_eq st research :
  outputs st !! "research" = Some research ->
  phase_analysis env st
  = phase_result "PHASE 2: OPPORTUNITY ANALYSIS"
      "[AnalysisAgent is identifying opportunities...]"
      "[AnalysisAgent Output]" "analysis"
      (request_of st analysis_system_prompt (analysis_user_message research))
      st.
Proof. intros H. fields st. unfold phase_analysis. phase_eq. Qed.

Lemma phase_analysis_keyerror st :
  outputs st !! "research" = None ->
  phase_analysis env st
  = phase_keyerror "PHASE 2: OPPORTUNITY ANALYSIS"
      "[AnalysisAgent is identifying opportunities...]" "research" st.
Proof. intros H. fields st. unfold phase_analysis. phase_eq. Qed.

Lemma phase_blueprint_eq st analysis :
  outputs st !! "analysis" = Some analysis ->
  phase_blueprint env st
  = phase_result "PHASE 3: PRODUCT BLUEPRINT"
      "[BlueprintAgent is designing the product...]"
      "[BlueprintAgent Output]" "blueprint"
      (request_of st blueprint_system_prompt (blueprint_user_message analysis))
      st.
Proof. intros H. fields st. unfold phase_blueprint. phase_eq. Qed.

Lemma phase_blueprint_keyerror st :
  outputs st !! "analysis" = None ->
  phase_blueprint env st
  = phase_keyerror "PHASE 3: PRODUCT BLUEPRINT"
      "[BlueprintAgent is designing the product...]" "analysis" st.
Proof. intros H. fields st. unfold phase_blueprint. phase_eq. Qed.

Lemma phase_launch_eq st blueprint :
  outputs st !! "blueprint" = Some blueprint ->
  phase_launch env st
  = phase_result "PHASE 4: GO-TO-MARKET STRATEGY"
      "[LaunchAgent is planning the go-to-market strategy...]"
      "[LaunchAgent Output]" "launch"
      (request_of st launch_system_prompt (launch_user_message blueprint)) st.
Proof. intros H. fields st. unfold phase_launch. phase_eq. Qed.

Lemma phase_launch_keyerror st :
  outputs st !! "blueprint" = None ->
  phase_launch env st
  = phase_keyerror "PHASE 4: GO-TO-MARKET STRATEGY"
      "[LaunchAgent is planning the go-to-market strategy...]" "blueprint" st.
Proof. intros H. fields st. unfold phase_launch. phase_eq. Qed.

Lemma phase_review_eq st blueprint launch :
  outputs st !! "blueprint" = Some blueprint ->
  outputs st !! "launch" = Some launch ->
  phase_review env st
  = phase_result "PHASE 5: STRATEGIC REVIEW"
      "[ReviewerAgent is providing recommendations...]"
      "[ReviewerAgent Output]" "review"
      (request_of st review_system_prompt
         (review_user_message blueprint launch)) st.
Proof. intros H1 H2. fields st. unfold phase_review. phase_eq. Qed.

Lemma phase_review_keyerror st :
  outputs st !! "blueprint" = None \/
  (is_Some (outputs st !! "blueprint") /\ outputs st !! "launch" = None) ->
  exists key,
    phase_review env st
    = phase_keyerror "PHASE 5: STRATEGIC REVIEW"
        "[ReviewerAgent is providing recommendations...]" key st.
Proof.
  intros [H|[[b Hb] H]]; fields st.
  - exists "blueprint". unfold phase_review. phase_eq.
  - exists "launch". unfold phase_review. phase_eq.
Qed.

(** ** Initialisation *)

Lemma init_invalid_eq st :
  snd (validate_setup env) = false ->
  __init__ env st = (Raise (SystemExit 1), init_invalid st).
Proof.
  intros H. fields st. unfold __init__, init_invalid. mred. rewrite H.
  cbn [negb]. mred. rewrite <- app_assoc. reflexivity.
Qed.

Lemma init_ctor_raises_eq st cls msg :
  snd (validate_setup env) = true ->
  OpenAI_raises env (API_KEY (cfg env)) (API_BASE (cfg env))
  = Some (cls, msg) ->
  __init__ env st
  = (Raise (PyException cls msg),
     set_stdout (stdout st ++ fst (validate_setup env)) st).
Proof.
  intros H C. fields st. unfold __init__. mred. rewrite H. cbn [negb]. mred.
  rewrite C. reflexivity.
Qed.

Lemma init_done_eq st :
  snd (validate_setup env) = true ->
  OpenAI_raises env (API_KEY (cfg env)) (API_BASE (cfg env)) = None ->
  __init__ env st = (Ok tt, init_done st).
Proof.
  intros H C. fields st. unfold __init__, init_done, using_line. mred.
  rewrite H. cbn [negb]. mred. rewrite C. mred.
  destruct (VERBOSE (cfg env)); mred; rewrite <- ?app_assoc, ?app_nil_r;
    reflexivity.
Qed.

(** ** run *)

Lemma run_eq st : run env st = phases_and_summary (run_prologue st).
Proof.
  fields st. unfold run, phases_and_summary, run_prologue. mred.
  rewrite <- !app_assoc. reflexivity.
Qed.

(** ** The final summary *)

Lemma print_summary_eq st r a b l v :
  outputs st !! "research" = Some r ->
  outputs st !! "analysis" = Some a ->
  outputs st !! "blueprint" = Some b ->
  outputs st !! "launch" = Some l ->
  outputs st !! "review" = Some v ->
  print_summary env st
  = match open_raises env (output_file_name (now env (clock_reads st))) with
    | Some (cls, msg) =>
        (Raise (PyException cls msg), summary_failed r a b l v st)
    | None => (Ok tt, summary_done r a b l v st)
    end.
Proof.
  intros Hr Ha Hb Hl Hv. fields st.
  unfold print_summary, summary_failed, summary_done, summary_console,
    full_output, output_file_name.
  mred.
  repeat (match goal with
          | H : ?m !! ?k = _ |- context [?m !! ?k] => rewrite H
          end; mred).
  match goal with
  | |- context [open_raises ?e ?n] =>
      destruct (open_raises e n) as [[cls msg]|]
  end; mred.
  - rewrite <- !app_assoc. reflexivity.
  - repeat (match goal with
            | H : ?m !! ?k = _ |- context [?m !! ?k] => rewrite H
            end; mred).
    rewrite !alter_insert_eq.
    unfold file_header, file_sections, file_section, phase_titles.
    cbn [zip_with String.concat].
    rewrite !append_assoc. rewrite <- !app_assoc. reflexivity.
Qed.

(** ** The handler *)

Lemma except_body_eq cls msg st :
  except_body cls msg st = (Ok tt, handled cls msg st).
Proof.
  fields st. unfold except_body, handled, troubleshooting. mred.
  rewrite <- !app_assoc.
  reflexivity.
Qed.

(** ** Sequencing *)

Lemma bind_bind {A B C} (m : M A) (f : A -> M B) (g : B -> M C) st :
  bind (bind m f) g st = bind m (fun x => bind (f x) g) st.
Proof. unfold bind. destruct (m st) as [[a|e] s']; reflexivity. Qed.

Lemma bind_Ok {A B} (m : M A) (k : A -> M B) st a st' :
  m st = (Ok a, st') -> bind m k st = k a st'.
Proof. intros H. unfold bind. rewrite H. reflexivity. Qed.

Lemma bind_Raise {A B} (m : M A) (k : A -> M B) st e st' :
  m st = (Raise e, st') -> bind m k st = (Raise e, st').
Proof. intros H. unfold bind. rewrite H. reflexivity. Qed.

(** ** The course of a run of the script *)

(** *** What is stored along the way *)

Lemma outputs_start : outputs st_start = ∅.
Proof. reflexivity. Qed.

Lemma outputs_research r : outputs (st_research r) = <["research" := r]> ∅.
Proof. reflexivity. Qed.

Lemma outputs_analysis r a :
  outputs (st_analysis r a) = <["analysis" := a]> (<["research" := r]> ∅).
Proof. reflexivity. Qed.

Lemma outputs_blueprint r a b :
  outputs (st_blueprint r a b)
  = <["blueprint" := b]> (<["analysis" := a]> (<["research" := r]> ∅)).
Proof. reflexivity. Qed.

Lemma outputs_launch r a b l :
  outputs (st_launch r a b l)
  = <["launch" := l]>
      (<["blueprint" := b]> (<["analysis" := a]> (<["research" := r]> ∅))).
Proof. reflexivity. Qed.

Lemma outputs_review r a b l v :
  outputs (st_review r a b l v)
  = <["review" := v]>
      (<["launch" := l]>
         (<["blueprint" := b]> (<["analysis" := a]> (<["research" := r]> ∅)))).
Proof. reflexivity. Qed.

Ltac lookup_stored :=
  rewrite ?outputs_research, ?outputs_analysis, ?outputs_blueprint,
    ?outputs_launch, ?outputs_review;
  repeat (rewrite lookup_insert_eq
          || (rewrite lookup_insert_ne by discriminate));
  reflexivity.

(** *** One phase at a time *)

Ltac phase_step H :=
  unfold answer in H;
  first [ rewrite phase_research_eq
        | erewrite phase_analysis_eq by lookup_stored
        | erewrite phase_blueprint_eq by lookup_stored
        | erewrite phase_launch_eq by lookup_stored
        | erewrite phase_review_eq by lookup_stored ];
  unfold phase_result;
  first [ rewrite H | unfold req_research, req_analysis, req_blueprint,
                        req_launch, req_review in H; rewrite H ];
  reflexivity.

Lemma research_returns r :
  answer st_start req_research = Completion r ->
  phase_research env st_start = (Ok tt, st_research r).
Proof. intros H. phase_step H. Qed.

Lemma research_raises cls msg :
  answer st_start req_research = Raises cls msg ->
  phase_research env st_start
  = (Raise (PyException cls msg),
     phase_failed "PHASE 1: MARKET RESEARCH"
       "[ResearchAgent is analyzing the market...]" req_research cls msg
       st_start).
Proof. intros H. phase_step H. Qed.

Lemma analysis_returns r a :
  answer (st_research r) (req_analysis r) = Completion a ->
  phase_analysis env (st_research r) = (Ok tt, st_analysis r a).
Proof. intros H. phase_step H. Qed.

Lemma analysis_raises r cls msg :
  answer (st_research r) (req_analysis r) = Raises cls msg ->
  phase_analysis env (st_research r)
  = (Raise (PyException cls msg),
     phase_failed "PHASE 2: OPPORTUNITY ANALYSIS"
       "[AnalysisAgent is identifying opportunities...]" (req_analysis r)
       cls msg (st_research r)).
Proof. intros H. phase_step H. Qed.

Lemma blueprint_returns r a b :
  answer (st_analysis r a) (req_blueprint r a) = Completion b ->
  phase_blueprint env (st_analysis r a) = (Ok tt, st_blueprint r a b).
Proof. intros H. phase_step H. Qed.

Lemma blueprint_raises r a cls msg :
  answer (st_analysis r a) (req_blueprint r a) = Raises cls msg ->
  phase_blueprint env (st_analysis r a)
  = (Raise (PyException cls msg),
     phase_failed "PHASE 3: PRODUCT BLUEPRINT"
       "[BlueprintAgent is designing the product...]" (req_blueprint r a)
       cls msg (st_analysis r a)).
Proof. intros H. phase_step H. Qed.

Lemma launch_returns r a b l :
  answer (st_blueprint r a b) (req_launch r a b) = Completion l ->
  phase_launch env (st_blueprint r a b) = (Ok tt, st_launch r a b l).
Proof. intros H. phase_step H. Qed.

Lemma launch_raises r a b cls msg :
  answer (st_blueprint r a b) (req_launch r a b) = Raises cls msg ->
  phase_launch env (st_blueprint r a b)
  = (Raise (PyException cls msg),
     phase_failed "PHASE 4: GO-TO-MARKET STRATEGY"
       "[LaunchAgent is planning the go-to-market strategy...]"
       (req_launch r a b) cls msg (st_blueprint r a b)).
Proof. intros H. phase_step H. Qed.

Lemma review_returns r a b l v :
  answer (st_launch r a b l) (req_review r a b l) = Completion v ->
  phase_review env (st_launch r a b l) = (Ok tt, st_review r a b l v).
Proof. intros H. phase_step H. Qed.

Lemma review_raises r a b l cls msg :
  answer (st_launch r a b l) (req_review r a b l) = Raises cls msg ->
  phase_review env (st_launch r a b l)
  = (Raise (PyException cls msg),
     phase_failed "PHASE 5: STRATEGIC REVIEW"
       "[ReviewerAgent is providing recommendations...]"
       (req_review r a b l) cls msg (st_launch r a b l)).
Proof. intros H. phase_step H. Qed.

Lemma summary_eq r a b l v :
  print_summary env (st_review r a b l v)
  = match open_raises env (file_name r a b l v) with
    | Some (cls, msg) =>
        (Raise (PyException cls msg),
         summary_failed r a b l v (st_review r a b l v))
    | None => (Ok tt, summary_done r a b l v (st_review r a b l v))
    end.
Proof. apply print_summary_eq; lookup_stored. Qed.

(** *** The script as a whole *)

Lemma python_finish : python env fs = finish (try_body env (boot fs)).
Proof.
  unfold python, main_block, try_except_Exception, finish.
  destruct (try_body env (boot fs)) as [[[]|[cls msg|code]] st];
    [reflexivity| |reflexivity].
  rewrite except_body_eq. reflexivity.
Qed.

Lemma try_body_started :
  started ->
  try_body env (boot fs)
  = bind phases_and_summary (fun _ => print confirmation) st_start.
Proof.
  intros [V C]. unfold try_body.
  rewrite (bind_Ok _ _ _ tt (init_done (boot fs)))
    by (apply init_done_eq; assumption).
  unfold bind at 1. rewrite run_eq. reflexivity.
Qed.

Lemma course_eq x y : x = y -> Course y -> Course x.
Proof. intros ->. trivial. Qed.

Ltac returned lem H T := erewrite bind_Ok in T by (apply lem; exact H).

Ltac raised T lem H :=
  eapply course_eq;
  [rewrite T; apply bind_Raise, bind_Raise, lem, H|].

(** Every run of the [try] body takes one of the nine courses. *)
Lemma try_body_course : Course (try_body env (boot fs)).
Proof.
  destruct (snd (validate_setup env)) eqn:V.
  2:{ eapply course_eq; [|apply course_invalid, V].
      unfold try_body. apply bind_Raise, init_invalid_eq, V. }
  destruct (OpenAI_raises env (API_KEY (cfg env)) (API_BASE (cfg env)))
    as [[cls msg]|] eqn:C.
  { eapply course_eq; [|apply course_no_client; eassumption].
    unfold try_body. apply bind_Raise, init_ctor_raises_eq; assumption. }
  assert (S0 : started) by (split; assumption).
  pose proof (try_body_started S0) as T. unfold phases_and_summary in T.
  destruct (answer st_start req_research) as [r|cls msg] eqn:H1.
  2:{ raised T research_raises H1.
      apply course_research_raised; assumption. }
  assert (G1 : got_research r) by (split; assumption).
  rewrite (bind_bind (phase_research env)) in T.
  returned research_returns H1 T.
  destruct (answer (st_research r) (req_analysis r)) as [a|cls msg] eqn:H2.
  2:{ raised T analysis_raises H2.
      apply course_analysis_raised; assumption. }
  assert (G2 : got_analysis r a) by (split; assumption).
  rewrite (bind_bind (phase_analysis env)) in T.
  returned analysis_returns H2 T.
  destruct (answer (st_analysis r a) (req_blueprint r a))
    as [b|cls msg] eqn:H3.
  2:{ raised T blueprint_raises H3.
      apply course_blueprint_raised; assumption. }
  assert (G3 : got_blueprint r a b) by (split; assumption).
  rewrite (bind_bind (phase_blueprint env)) in T.
  returned blueprint_returns H3 T.
  destruct (answer (st_blueprint r a b) (req_launch r a b))
    as [l|cls msg] eqn:H4.
  2:{ raised T launch_raises H4.
      apply course_launch_raised; assumption. }
  assert (G4 : got_launch r a b l) by (split; assumption).
  rewrite (bind_bind (phase_launch env)) in T.
  returned launch_returns H4 T.
  destruct (answer (st_launch r a b l) (req_review r a b l))
    as [v|cls msg] eqn:H5.
  2:{ raised T review_raises H5.
      apply course_review_raised; assumption. }
  assert (G5 : got_review r a b l v) by (split; assumption).
  rewrite (bind_bind (phase_review env)) in T.
  returned review_returns H5 T.
  destruct (open_raises env (file_name r a b l v)) as [[cls msg]|] eqn:O.
  - eapply course_eq; [|apply course_no_file; eassumption].
    rewrite T. apply bind_Raise. rewrite summary_eq, O. reflexivity.
  - eapply course_eq; [|apply course_completed; eassumption].
    rewrite T. unfold bind. rewrite summary_eq, O. reflexivity.
Qed.

(** * Properties of the workflow *)

(** Unfolding of the states of a course down to their fields. *)
Ltac unroll :=
  unfold exit_status, final; cbn [fst snd];
  lazy beta iota zeta delta
    [handled phase_failed phase_done phase_banner
     summary_failed summary_done file_name
     st_review st_launch st_blueprint st_analysis st_research st_start
     req_review req_launch req_blueprint req_analysis req_research request_of
     run_prologue init_done init_invalid boot
     set_client set_outputs set_model set_stdout set_stderr set_files
     set_calls set_clock_reads
     client outputs model stdout stderr files calls clock_reads
     req_model req_temperature req_max_tokens req_messages];
  cbn [app].

Ltac unroll_in H :=
  unfold exit_status, final in H; cbn [fst snd] in H;
  lazy beta iota zeta delta
    [handled phase_failed phase_done phase_banner
     summary_failed summary_done file_name
     st_review st_launch st_blueprint st_analysis st_research st_start
     req_review req_launch req_blueprint req_analysis req_research request_of
     run_prologue init_done init_invalid boot
     set_client set_outputs set_model set_stdout set_stderr set_files
     set_calls set_clock_reads
     client outputs model stdout stderr files calls clock_reads
     req_model req_temperature req_max_tokens req_messages] in H;
  cbn [app] in H.

(** Case analysis on the course of the run. *)
Ltac by_course :=
  unfold exit_status, final; rewrite python_finish;
  generalize try_body_course; generalize (try_body env (boot fs));
  let res := fresh "res" in let HC := fresh "HC" in
  intros res HC; destruct HC; cbn [finish].

Ltac open_got :=
  unfold got_review, got_launch, got_blueprint, got_analysis, got_research,
    started in *;
  repeat match goal with H : _ /\ _ |- _ => destruct H end.

(** C5. If configuration validation fails, no call is made to the
    completion service: the run stops in [__init__], having printed the
    validation's own lines and the error line and nothing of [run], whose
    first statements print the banner and read the clock. *)
Theorem invalid_config_makes_no_call :
  snd (validate_setup env) = false ->
  calls final = [] /\
  stdout final
  = (fst (validate_setup env)
     ++ ["ERROR: Configuration validation failed!"])%list /\
  clock_reads final = 0.
Proof.
  intros V. revert V. by_course; intros V; try (open_got; congruence).
  unroll. auto.
Qed.

(** The entries of an explicit call log, one index at a time. *)
Ltac case_index H i :=
  unroll; unroll_in H;
  destruct i as [|[|[|[|[|i]]]]]; cbn [lookup list_lookup] in H;
  try discriminate H;
  try (injection H as <- <- <-); try (injection H as <- <-).

Ltac stored :=
  repeat (rewrite lookup_insert_eq
          || (rewrite lookup_insert_ne by discriminate));
  try reflexivity; try apply lookup_empty.

Ltac stored_size :=
  repeat (rewrite map_size_insert_None by stored);
  rewrite ?map_size_empty; try reflexivity.

(** C9. Every call to the completion service sends two messages, a
    system message and then a user message, with the model, temperature and
    token limit of the configuration; and there are at most five calls. *)
Theorem every_request_well_formed :
  Forall (fun c => well_formed (fst c)) (calls final) /\
  length (calls final) <= 5.
Proof.
  by_course; unroll; (split; [|cbn [length]; lia]);
    repeat (apply Forall_cons; split; [unfold well_formed; auto|]);
    apply Forall_nil; exact I.
Qed.

(** C10. When configuration validation fails, [exit(1)] raises
    [SystemExit], which the handler of [Exception] lets through: the process
    ends with status 1, the error line is the last thing printed and no stack
    trace is written.  A call that raises in a phase is caught by the
    handler, which prints the error message and the troubleshooting list and
    writes the stack trace. *)
Theorem config_failure_bypasses_handler :
  (snd (validate_setup env) = false ->
   fst (main_block env (boot fs)) = Raise (SystemExit 1) /\
   exit_status = 1%Z /\
   stdout final
   = (fst (validate_setup env)
      ++ ["ERROR: Configuration validation failed!"])%list /\
   stderr final = []) /\
  (forall i req cls msg,
     calls final !! i = Some (req, Raises cls msg) ->
     (exists pre,
        stdout final = (pre ++ error_message msg :: troubleshooting)%list) /\
     stderr final = [Traceback (PyException cls msg)]).
Proof.
  split.
  - intros V. split.
    { unfold main_block, try_except_Exception, try_body.
      erewrite bind_Raise by (apply init_invalid_eq, V). reflexivity. }
    revert V. by_course; intros V; try (open_got; congruence).
    unroll. auto.
  - intros i req cls0 msg0. by_course; intros Hlog; case_index Hlog i.
    all: split; [eexists; reflexivity | reflexivity].
Qed.

(** C3. If the call of a phase raises, no file is created or written, the
    call is the last one made, and the outputs of the earlier phases are
    stored in the mapping only.  The files change only in a run whose five
    calls all returned. *)
Theorem remote_failure_leaves_no_file :
  (forall i req cls msg,
     calls final !! i = Some (req, Raises cls msg) ->
     files final = fs /\
     length (calls final) = S i /\
     size (outputs final) = i) /\
  (files final <> fs ->
   length (calls final) = 5 /\
   forallb (fun c => succeeded (snd c)) (calls final) = true).
Proof.
  split.
  - intros i req cls0 msg0. by_course; intros Hlog; case_index Hlog i.
    all: split; [reflexivity|split; [reflexivity|stored_size]].
  - by_course; intros Hfs; unroll; unroll_in Hfs; try congruence.
    split; reflexivity.
Qed.

(** C2. With a valid configuration, when no call of the run raised, the
    calls made are exactly those of the five phases in the order research,
    analysis, blueprint, launch, review, and the mapping then holds exactly
    five outputs, one under each phase name: the text its call returned. *)
Theorem five_phases_in_order :
  snd (validate_setup env) = true ->
  OpenAI_raises env (API_KEY (cfg env)) (API_BASE (cfg env)) = None ->
  forallb (fun c => succeeded (snd c)) (calls final) = true ->
  (fun c => system_content (fst c)) <$> calls final = Some <$> system_prompts /\
  dom (outputs final) = list_to_set phase_names /\
  size (outputs final) = 5 /\
  (fun c => Some (snd c)) <$> calls final
  = (fun k => Completion <$> outputs final !! k) <$> phase_names.
Proof.
  intros V C. revert V C.
  by_course; intros V C Hlog; try (open_got; congruence);
    unroll; unroll_in Hlog; try discriminate Hlog.
  all: split; [reflexivity|]; split;
    [rewrite !dom_insert_L, dom_empty_L; unfold phase_names;
     cbn [list_to_set]; apply set_eq; intros k;
     rewrite !elem_of_union, !elem_of_singleton; tauto|];
    split; [stored_size|];
    unfold phase_names; cbn [fmap list_fmap]; stored.
Qed.

(** C1. In every run, the user message of the analysis call contains the
    stored research output, that of the blueprint call the stored analysis
    output, that of the launch call the stored blueprint output, and that of
    the review call the stored blueprint and launch outputs; the calls are
    told apart by their place in the log and carry the system prompt of
    their phase. *)
Theorem context_passing i req rep :
  calls final !! i = Some (req, rep) ->
  system_content req = system_prompts !! i /\
  match i with
  | 0 => user_content req = Some research_user_message
  | 1 =>
      exists r u,
        outputs final !! "research" = Some r /\
        user_content req = Some u /\ contains r u
  | 2 =>
      exists a u,
        outputs final !! "analysis" = Some a /\
        user_content req = Some u /\ contains a u
  | 3 =>
      exists b u,
        outputs final !! "blueprint" = Some b /\
        user_content req = Some u /\ contains b u
  | 4 =>
      exists b l u,
        outputs final !! "blueprint" = Some b /\
        outputs final !! "launch" = Some l /\
        user_content req = Some u /\ contains b u /\ contains l u
  | _ => False
  end.
Proof.
  by_course; intros Hlog; case_index Hlog i.
  all: split; [reflexivity|].
  all: try reflexivity.
  all: repeat match goal with |- exists _, _ => eexists end;
    repeat apply conj; stored; cbn [content];
    auto using contains_analysis, contains_blueprint, contains_launch,
      contains_review_blueprint, contains_review_launch.
Qed.

(** A line among those printed, looked for from the end. *)
Ltac printed :=
  solve [ apply list_elem_of_here
        | apply list_elem_of_further; printed
        | apply elem_of_app; right; printed
        | apply elem_of_app; left; printed ].

(** C7. When the run completes, the output file is named
    workflow_outputs_<YYYYMMDD_HHMMSS>.txt after the clock reading taken
    for it, and holds the header (title, time of generation, model name)
    followed by the five sections, each an empty line, a line of dashes, the
    phase title, a line of dashes and the full output of the phase; no other
    file is touched. *)
Theorem output_file_layout :
  snd (validate_setup env) = true ->
  OpenAI_raises env (API_KEY (cfg env)) (API_BASE (cfg env)) = None ->
  forallb (fun c => succeeded (snd c)) (calls final) = true ->
  open_raises env (output_file_name (now env 1)) = None ->
  (exists r a b l v,
     (fun k => outputs final !! k) <$> phase_names
     = Some <$> [r; a; b; l; v] /\
     files final
     = <[output_file_name (now env 1) :=
           file_header (strftime "%Y-%m-%d %H:%M:%S" (now env 2))
             (OPENAI_MODEL (cfg env))
           +:+ file_section "PHASE 1: MARKET RESEARCH" r
           +:+ file_section "PHASE 2: OPPORTUNITY ANALYSIS" a
           +:+ file_section "PHASE 3: PRODUCT BLUEPRINT" b
           +:+ file_section "PHASE 4: GO-TO-MARKET STRATEGY" l
           +:+ file_section "PHASE 5: STRATEGIC REVIEW" v]> fs) /\
  output_file_name (now env 1)
  = "workflow_outputs_" +:+ stamp (now env 1) +:+ ".txt" /\
  String.length (stamp (now env 1)) = 15.
Proof.
  intros V C Hlog O. split; [|split].
  - revert V C Hlog O.
    by_course; intros V C Hlog O; try (open_got; congruence);
      unroll; unroll_in Hlog; try discriminate Hlog.
    + match goal with H : open_raises _ _ = Some _ |- _ => unroll_in H end.
      congruence.
    + exists r, a, b, l, v. split.
      * unfold phase_names. cbn [fmap list_fmap]. stored.
      * reflexivity.
  - reflexivity.
  - unfold stamp. rewrite !length_append, !length_zero_padded. reflexivity.
Qed.

Lemma stored_texts_five st r a b l v :
  outputs st
  = <["review" := v]>
      (<["launch" := l]>
         (<["blueprint" := b]> (<["analysis" := a]> (<["research" := r]> ∅)))) ->
  stored_texts st = [r; a; b; l; v].
Proof.
  intros E. unfold stored_texts, phase_names. rewrite E.
  cbn [omap list_omap].
  repeat (rewrite lookup_insert_eq
          || (rewrite lookup_insert_ne by discriminate)).
  reflexivity.
Qed.

(** C4. When the run completes, the output file holds, after its header,
    exactly five sections, titled in phase order, and the body of each is
    the text stored for its phase, which is also a text printed to the
    console. *)
Theorem phase_texts_round_trip :
  snd (validate_setup env) = true ->
  OpenAI_raises env (API_KEY (cfg env)) (API_BASE (cfg env)) = None ->
  forallb (fun c => succeeded (snd c)) (calls final) = true ->
  open_raises env (output_file_name (now env 1)) = None ->
  files final !! output_file_name (now env 1)
  = Some (file_header (strftime "%Y-%m-%d %H:%M:%S" (now env 2))
            (OPENAI_MODEL (cfg env))
          +:+ file_sections (stored_texts final)) /\
  length (stored_texts final) = 5 /\
  (fun k => outputs final !! k) <$> phase_names = Some <$> stored_texts final /\
  Forall (fun text => text ∈ stdout final) (stored_texts final).
Proof.
  intros V C. revert V C.
  by_course; intros V C Hlog O; try (open_got; congruence);
    unroll_in Hlog; try discriminate Hlog.
  - match goal with H : open_raises _ _ = Some _ |- _ => unroll_in H end.
    congruence.
  - rewrite !(stored_texts_five _ r a b l v) by reflexivity. unroll.
    split; [apply lookup_insert_eq|].
    split; [reflexivity|]. split.
    { unfold phase_names. cbn [fmap list_fmap]. stored. }
    unfold summary_console, full_output.
    repeat (apply Forall_cons; split; [printed|]).
    apply Forall_nil; exact I.
Qed.

(** C6, as the code has it.  When the [try] body returns, the confirmation
    is the last line printed and the exit status is 0.  When it raises an
    [Exception], the handler prints the error message with the exception's
    text and the troubleshooting heading with its five items, writes the
    stack trace, and the script then ends as it does on success: the exit
    status is 0.  A [SystemExit] goes through with its code. *)
Theorem exit_behaviour :
  match try_body env (boot fs) with
  | (Ok _, _) =>
      last (stdout final) = Some confirmation /\ stderr final = [] /\
      exit_status = 0%Z
  | (Raise (PyException cls msg), _) =>
      (exists pre,
         stdout final = (pre ++ error_message msg :: troubleshooting)%list) /\
      stderr final = [Traceback (PyException cls msg)] /\
      exit_status = 0%Z
  | (Raise (SystemExit code), _) => exit_status = code /\ stderr final = []
  end /\
  length troubleshooting = 6.
Proof.
  split; [|reflexivity].
  unfold exit_status, final. rewrite python_finish.
  generalize try_body_course. generalize (try_body env (boot fs)).
  intros res HC. destruct HC; cbn [finish]; unroll.
  2-8: split; [eexists; reflexivity|split; reflexivity].
  - split; reflexivity.
  - split; [apply last_snoc|split; reflexivity].
Qed.

(** *** What a phase does to the mapping *)

Lemma phase_result_others title progress header key req st k :
  k <> key ->
  outputs (snd (phase_result title progress header key req st)) !! k
  = outputs st !! k.
Proof.
  intros Hk. unfold phase_result. fields st.
  destruct (remote env _ _ req); unfold phase_done, phase_failed; mred;
    cbn [snd]; [|reflexivity].
  apply lookup_insert_ne. congruence.
Qed.

Lemma phase_result_own title progress header key req st :
  match fst (phase_result title progress header key req st) with
  | Ok _ =>
      is_Some
        (outputs (snd (phase_result title progress header key req st)) !! key)
  | Raise _ =>
      outputs (snd (phase_result title progress header key req st))
      = outputs st
  end.
Proof.
  unfold phase_result. fields st.
  destruct (remote env _ _ req); unfold phase_done, phase_failed; mred;
    cbn [fst snd]; [|reflexivity].
  rewrite lookup_insert_eq. eauto.
Qed.

(** Every phase either goes through its call or stops at a lookup. *)
Lemma phase_method_shape p st :
  (exists title progress header req,
     phase_method p st
     = phase_result title progress header (phase_name p) req st) \/
  (exists title progress key,
     phase_method p st = phase_keyerror title progress key st).
Proof.
  destruct p; cbn [phase_method phase_name].
  - left. eexists _, _, _, _. apply phase_research_eq.
  - destruct (outputs st !! "research") eqn:E.
    + left. eexists _, _, _, _. apply phase_analysis_eq, E.
    + right. eexists _, _, _. apply phase_analysis_keyerror, E.
  - destruct (outputs st !! "analysis") eqn:E.
    + left. eexists _, _, _, _. apply phase_blueprint_eq, E.
    + right. eexists _, _, _. apply phase_blueprint_keyerror, E.
  - destruct (outputs st !! "blueprint") eqn:E.
    + left. eexists _, _, _, _. apply phase_launch_eq, E.
    + right. eexists _, _, _. apply phase_launch_keyerror, E.
  - destruct (outputs st !! "blueprint") eqn:E1.
    + destruct (outputs st !! "launch") eqn:E2.
      * left. eexists _, _, _, _. eapply phase_review_eq; eassumption.
      * right. destruct (phase_review_keyerror st) as [key Hk]; eauto.
    + right. destruct (phase_review_keyerror st) as [key Hk]; eauto.
Qed.

Lemma phase_method_others p st k :
  k <> phase_name p ->
  outputs (snd (phase_method p st)) !! k = outputs st !! k.
Proof.
  intros Hk.
  destruct (phase_method_shape p st)
    as [(t & g & h & req & ->)|(t & g & key & ->)].
  - apply phase_result_others, Hk.
  - reflexivity.
Qed.

Lemma call_in_turn_others ps : forall st st' k,
  call_in_turn ps st = (Ok tt, st') ->
  k ∉ phase_name <$> ps ->
  outputs st' !! k = outputs st !! k.
Proof.
  induction ps as [|p ps IH]; intros st st' k Hrun Hk.
  - injection Hrun as <-. reflexivity.
  - cbn [call_in_turn] in Hrun. unfold bind in Hrun.
    pose proof (phase_method_others p st k) as Hp.
    destruct (phase_method p st) as [[[]|e] st1]; [|discriminate].
    cbn [fmap list_fmap] in Hk. apply not_elem_of_cons in Hk as [Hne Hk].
    rewrite (IH _ _ _ Hrun Hk). apply Hp, Hne.
Qed.

(** C8. A phase writes the mapping under its own name only: the entries
    under the other names are as they were, an entry under its name exists
    when it returns, and nothing changes when it raises.  In [run], which
    calls the phases in turn after its prologue, nothing is stored under the
    name of a phase when its turn comes, provided the mapping was empty at
    the start, as [__init__] leaves it: no entry is overwritten. *)
Theorem outputs_written_once :
  (forall p st k,
     k <> phase_name p ->
     outputs (snd (phase_method p st)) !! k = outputs st !! k) /\
  (forall p st,
     match fst (phase_method p st) with
     | Ok _ => is_Some (outputs (snd (phase_method p st)) !! phase_name p)
     | Raise _ => outputs (snd (phase_method p st)) = outputs st
     end) /\
  (forall st,
     run env st
     = bind (call_in_turn all_phases) (fun _ => print_summary env)
         (run_prologue st)) /\
  (forall done p rest st st',
     all_phases = (done ++ p :: rest)%list ->
     outputs st = ∅ ->
     call_in_turn done st = (Ok tt, st') ->
     outputs st' !! phase_name p = None) /\
  outputs (init_done (boot fs)) = ∅.
Proof.
  split; [exact phase_method_others|]. split; [|split; [|split]].
  - intros p st.
    destruct (phase_method_shape p st)
      as [(t & g & h & req & ->)|(t & g & key & ->)].
    + apply phase_result_own.
    + reflexivity.
  - intros st. rewrite run_eq. unfold phases_and_summary, all_phases.
    cbn [call_in_turn phase_method]. generalize (run_prologue st) as s0.
    intros s0. unfold bind, ret.
    destruct (phase_research env s0) as [[[]|?] s1]; [|reflexivity].
    destruct (phase_analysis env s1) as [[[]|?] s2]; [|reflexivity].
    destruct (phase_blueprint env s2) as [[[]|?] s3]; [|reflexivity].
    destruct (phase_launch env s3) as [[[]|?] s4]; [|reflexivity].
    destruct (phase_review env s4) as [[[]|?] s5]; reflexivity.
  - intros done p rest st st' Hsplit Hempty Hrun.
    rewrite (call_in_turn_others _ _ _ _ Hrun).
    + rewrite Hempty. apply lookup_empty.
    + unfold all_phases in Hsplit.
      do 5 (destruct done as [|? done]; cbn [app] in Hsplit;
            [injection Hsplit as <- <-;
             cbn [fmap list_fmap phase_name];
             rewrite ?not_elem_of_cons; repeat split; try discriminate;
             apply not_elem_of_nil
            |injection Hsplit as <- Hsplit]).
      destruct done; discriminate Hsplit.
  - reflexivity.
Qed.

(** * Further properties *)

(** ** A phase on any state *)

Lemma phase_review_keyerror_blueprint st :
  outputs st !! "blueprint" = None ->
  phase_review env st
  = phase_keyerror "PHASE 5: STRATEGIC REVIEW"
      "[ReviewerAgent is providing recommendations...]" "blueprint" st.
Proof. intros H. fields st. unfold phase_review. phase_eq. Qed.

Lemma phase_review_keyerror_launch st blueprint :
  outputs st !! "blueprint" = Some blueprint ->
  outputs st !! "launch" = None ->
  phase_review env st
  = phase_keyerror "PHASE 5: STRATEGIC REVIEW"
      "[ReviewerAgent is providing recommendations...]" "launch" st.
Proof. intros H1 H2. fields st. unfold phase_review. phase_eq. Qed.

Lemma phase_keyerror_spec title progress key st :
  fst (phase_keyerror title progress key st) = Raise (key_error key) /\
  calls (snd (phase_keyerror title progress key st)) = calls st /\
  outputs (snd (phase_keyerror title progress key st)) = outputs st /\
  stdout (snd (phase_keyerror title progress key st))
  = (stdout st ++ phase_banner title progress)%list.
Proof. repeat split. Qed.

Lemma phase_result_spec title progress header key req st :
  calls (snd (phase_result title progress header key req st))
  = (calls st ++ [(req, remote env (client st) (calls st) req)])%list /\
  match remote env (client st) (calls st) req with
  | Completion text =>
      fst (phase_result title progress header key req st) = Ok tt /\
      outputs (snd (phase_result title progress header key req st))
      = <[key := text]> (outputs st) /\
      last (stdout (snd (phase_result title progress header key req st)))
      = Some text
  | Raises cls msg =>
      fst (phase_result title progress header key req st)
      = Raise (PyException cls msg) /\
      outputs (snd (phase_result title progress header key req st))
      = outputs st
  end.
Proof.
  unfold phase_result.
  destruct (remote env (client st) (calls st) req) as [text|cls msg];
    cbn [fst snd].
  - split; [reflexivity|]. split; [reflexivity|]. split; [reflexivity|].
    unfold phase_done, set_stdout. cbn [stdout].
    change [nl +:+ header; text] with ([nl +:+ header] ++ [text])%list.
    rewrite !app_assoc. apply last_snoc.
  - repeat split.
Qed.

(** X1. A phase called before the outputs it reads are stored raises
    [KeyError] for the first of them that is missing, after printing its
    four banner lines: it makes no call and stores nothing. *)
Theorem phase_out_of_turn p st k :
  first_missing (outputs st) (phase_needs p) = Some k ->
  fst (phase_method p st) = Raise (key_error k) /\
  calls (snd (phase_method p st)) = calls st /\
  outputs (snd (phase_method p st)) = outputs st /\
  exists title progress,
    stdout (snd (phase_method p st))
    = (stdout st ++ [nl +:+ str_mul "=" 80; title; str_mul "=" 80; progress])%list.
Proof.
  intros H.
  assert (exists title progress,
            phase_method p st = phase_keyerror title progress k st)
    as (title & progress & E).
  { destruct p; cbn [phase_needs first_missing] in H;
      cbn [phase_method]; try discriminate H.
    - destruct (outputs st !! "research") eqn:E; [discriminate H|].
      injection H as <-. eexists _, _. apply phase_analysis_keyerror, E.
    - destruct (outputs st !! "analysis") eqn:E; [discriminate H|].
      injection H as <-. eexists _, _. apply phase_blueprint_keyerror, E.
    - destruct (outputs st !! "blueprint") eqn:E; [discriminate H|].
      injection H as <-. eexists _, _. apply phase_launch_keyerror, E.
    - destruct (outputs st !! "blueprint") eqn:E1.
      + destruct (outputs st !! "launch") eqn:E2; [discriminate H|].
        injection H as <-. eexists _, _.
        eapply phase_review_keyerror_launch; eassumption.
      + injection H as <-. eexists _, _.
        apply phase_review_keyerror_blueprint, E1. }
  rewrite E.
  destruct (phase_keyerror_spec title progress k st) as (A & B & C & D).
  repeat split; try assumption. exists title, progress. exact D.
Qed.

(** X2. A phase whose needed outputs are stored makes exactly one call,
    with the model of the object and a system and a user message.  When the
    call returns a text, the phase returns, the text is stored under the
    name of the phase, replacing what was there, and it is the last line
    printed; when the call raises, the exception goes up and the mapping is
    as it was. *)
Theorem phase_stores_its_reply p st :
  first_missing (outputs st) (phase_needs p) = None ->
  exists req,
    req_model req = model st /\
    role <$> req_messages req = ["system"; "user"] /\
    calls (snd (phase_method p st))
    = (calls st ++ [(req, remote env (client st) (calls st) req)])%list /\
    match remote env (client st) (calls st) req with
    | Completion text =>
        fst (phase_method p st) = Ok tt /\
        outputs (snd (phase_method p st))
        = <[phase_name p := text]> (outputs st) /\
        last (stdout (snd (phase_method p st))) = Some text
    | Raises cls msg =>
        fst (phase_method p st) = Raise (PyException cls msg) /\
        outputs (snd (phase_method p st)) = outputs st
    end.
Proof.
  intros H.
  assert (exists title progress header sys usr,
            phase_method p st
            = phase_result title progress header (phase_name p)
                (request_of st sys usr) st)
    as (title & progress & header & sys & usr & E).
  { destruct p; cbn [phase_needs first_missing] in H;
      cbn [phase_method phase_name].
    - eexists _, _, _, _, _. apply phase_research_eq.
    - destruct (outputs st !! "research") eqn:E; [|discriminate H].
      eexists _, _, _, _, _. apply phase_analysis_eq, E.
    - destruct (outputs st !! "analysis") eqn:E; [|discriminate H].
      eexists _, _, _, _, _. apply phase_blueprint_eq, E.
    - destruct (outputs st !! "blueprint") eqn:E; [|discriminate H].
      eexists _, _, _, _, _. apply phase_launch_eq, E.
    - destruct (outputs st !! "blueprint") eqn:E1; [|discriminate H].
      destruct (outputs st !! "launch") eqn:E2; [|discriminate H].
      eexists _, _, _, _, _. eapply phase_review_eq; eassumption. }
  exists (request_of st sys usr). rewrite E.
  split; [reflexivity|]. split; [reflexivity|].
  apply phase_result_spec.
Qed.

(** X3. A phase, however it ends, leaves the files, standard error, the
    clock, the client and the model as they were; it only adds lines to
    standard output and at most one entry to the call log. *)
Theorem phase_touches_nothing_else p st :
  files (snd (phase_method p st)) = files st /\
  stderr (snd (phase_method p st)) = stderr st /\
  clock_reads (snd (phase_method p st)) = clock_reads st /\
  client (snd (phase_method p st)) = client st /\
  model (snd (phase_method p st)) = model st /\
  (exists more, stdout (snd (phase_method p st)) = (stdout st ++ more)%list) /\
  (exists more,
     calls (snd (phase_method p st)) = (calls st ++ more)%list /\
     length more <= 1).
Proof.
  destruct (phase_method_shape p st)
    as [(t & g & h & req & ->)|(t & g & key & ->)].
  - unfold phase_result.
    destruct (remote env (client st) (calls st) req); cbn [fst snd];
      (repeat split; [eexists; reflexivity|]);
      eexists; (split; [reflexivity|]); cbn [length]; lia.
  - repeat split; [eexists; reflexivity|].
    exists []. split; [symmetry; apply app_nil_r|]. cbn [length]. lia.
Qed.

(** ** The summary on any state *)

Ltac summary_stops :=
  unfold print_summary, key_error; mred;
  repeat (match goal with
          | H : ?m !! ?k = _ |- context [?m !! ?k] => rewrite H
          end; mred);
  cbn [fst snd]; repeat split.

(** X4. [print_summary] on a mapping that lacks the output of a phase
    raises [KeyError] for the first phase, in phase order, whose output is
    missing; this happens while printing, before the clock is read for the
    file name: no file is opened or written. *)
Theorem summary_needs_every_output st k :
  first_missing (outputs st) phase_names = Some k ->
  fst (print_summary env st) = Raise (key_error k) /\
  files (snd (print_summary env st)) = files st /\
  clock_reads (snd (print_summary env st)) = clock_reads st /\
  calls (snd (print_summary env st)) = calls st /\
  outputs (snd (print_summary env st)) = outputs st.
Proof.
  intros H. fields st. unfold phase_names in H. cbn [first_missing] in H.
  destruct (outputs0 !! "research") eqn:E1;
    [|injection H as <-; summary_stops].
  destruct (outputs0 !! "analysis") eqn:E2;
    [|injection H as <-; summary_stops].
  destruct (outputs0 !! "blueprint") eqn:E3;
    [|injection H as <-; summary_stops].
  destruct (outputs0 !! "launch") eqn:E4;
    [|injection H as <-; summary_stops].
  destruct (outputs0 !! "review") eqn:E5;
    [discriminate H|injection H as <-; summary_stops].
Qed.

(** X5. [print_summary] on a mapping that holds the five outputs reads
    the clock for the file name and opens that file.  If opening raises, the
    exception goes up and no file is changed.  Otherwise the file holds the
    header and the five sections of the stored texts whatever it held
    before, and the other files are as they were.  In both cases the mapping
    and the call log are untouched. *)
Theorem summary_writes_one_file st :
  first_missing (outputs st) phase_names = None ->
  outputs (snd (print_summary env st)) = outputs st /\
  calls (snd (print_summary env st)) = calls st /\
  match open_raises env (output_file_name (now env (clock_reads st))) with
  | Some (cls, msg) =>
      fst (print_summary env st) = Raise (PyException cls msg) /\
      files (snd (print_summary env st)) = files st
  | None =>
      fst (print_summary env st) = Ok tt /\
      files (snd (print_summary env st))
      = <[output_file_name (now env (clock_reads st)) :=
            file_header
              (strftime "%Y-%m-%d %H:%M:%S" (now env (S (clock_reads st))))
              (model st)
            +:+ file_sections (stored_texts st)]> (files st) /\
      clock_reads (snd (print_summary env st)) = 3 + clock_reads st
  end.
Proof.
  intros H. unfold phase_names in H. cbn [first_missing] in H.
  destruct (outputs st !! "research") as [r|] eqn:E1; [|discriminate H].
  destruct (outputs st !! "analysis") as [a|] eqn:E2; [|discriminate H].
  destruct (outputs st !! "blueprint") as [b|] eqn:E3; [|discriminate H].
  destruct (outputs st !! "launch") as [l|] eqn:E4; [|discriminate H].
  destruct (outputs st !! "review") as [v|] eqn:E5; [|discriminate H].
  assert (Hst : stored_texts st = [r; a; b; l; v]).
  { unfold stored_texts, phase_names. cbn [omap list_omap].
    rewrite E1, E2, E3, E4, E5. reflexivity. }
  rewrite (print_summary_eq st r a b l v E1 E2 E3 E4 E5), Hst.
  destruct (open_raises env (output_file_name (now env (clock_reads st))))
    as [[cls msg]|]; cbn [fst snd]; repeat split.
Qed.

(** ** More on a run of the script *)

(** X6. When the five calls returned and the output file cannot be
    opened, the run leaves the files as they were although the five
    outputs are stored and the full results were printed; the handler
    reports the exception of [open] and the exit status is 0; the clock was
    read twice, for the start time and for the file name. *)
Theorem unopened_file_is_reported cls msg :
  snd (validate_setup env) = true ->
  OpenAI_raises env (API_KEY (cfg env)) (API_BASE (cfg env)) = None ->
  forallb (fun c => succeeded (snd c)) (calls final) = true ->
  open_raises env (output_file_name (now env 1)) = Some (cls, msg) ->
  files final = fs /\
  length (stored_texts final) = 5 /\
  (exists pre,
     stdout final
     = (pre ++ full_output "PHASE 5: STRATEGIC REVIEW (Full Output)"
                 (default EmptyString (outputs final !! "review"))
            ++ error_message msg :: troubleshooting)%list) /\
  stderr final = [Traceback (PyException cls msg)] /\
  exit_status = 0%Z /\
  clock_reads final = 2.
Proof.
  intros V C. revert V C.
  by_course; intros V C Hlog O; try (open_got; congruence);
    unroll_in Hlog; try discriminate Hlog.
  - match goal with
    | H : open_raises _ (file_name _ _ _ _ _) = Some (?c, ?m) |- _ =>
        unroll_in H; assert (E : (c, m) = (cls, msg)) by congruence
    end.
    injection E as -> ->.
    rewrite !(stored_texts_five _ r a b l v) by reflexivity. unroll.
    rewrite lookup_insert_eq. cbn [default].
    split; [reflexivity|]. split; [reflexivity|]. split.
    { unfold summary_console. eexists. rewrite !app_assoc. reflexivity. }
    repeat split.
  - match goal with H : open_raises _ _ = None |- _ => unroll_in H end.
    congruence.
Qed.

(** X7. When the [OpenAI] constructor raises, the handler reports its
    exception right after the lines of the validation: the line naming the
    API in use is not printed, no call is made, the clock is not read, no
    file is written, and the exit status is 0. *)
Theorem client_failure_is_reported cls msg :
  snd (validate_setup env) = true ->
  OpenAI_raises env (API_KEY (cfg env)) (API_BASE (cfg env))
  = Some (cls, msg) ->
  stdout final
  = (fst (validate_setup env) ++ error_message msg :: troubleshooting)%list /\
  stderr final = [Traceback (PyException cls msg)] /\
  calls final = [] /\
  clock_reads final = 0 /\
  files final = fs /\
  exit_status = 0%Z.
Proof.
  intros V C. revert V C.
  by_course; intros V C; try (open_got; congruence).
  match goal with
  | H : OpenAI_raises _ _ _ = Some (?c, ?m) |- _ =>
      assert (E : (c, m) = (cls, msg)) by congruence;
      injection E as -> ->
  end.
  unroll. repeat split.
Qed.

(** X8. The exit status of the process tells a configuration that does
    not validate, and nothing else: it is 1 in that case and 0 in every
    other, whatever was raised. *)
Theorem exit_status_tells_validation_only :
  exit_status = if snd (validate_setup env) then 0%Z else 1%Z.
Proof.
  by_course; open_got;
    match goal with H : snd (validate_setup env) = _ |- _ => rewrite H end;
    reflexivity.
Qed.

(** X9. A run that completes reads the clock four times, for the start
    time, the file name, the header of the file and the end time, in this
    order; its last lines on the console are the line naming the file, the
    end time, a line of equal signs and the confirmation. *)
Theorem completed_run_ends_with :
  snd (validate_setup env) = true ->
  OpenAI_raises env (API_KEY (cfg env)) (API_BASE (cfg env)) = None ->
  forallb (fun c => succeeded (snd c)) (calls final) = true ->
  open_raises env (output_file_name (now env 1)) = None ->
  clock_reads final = 4 /\
  exists pre,
    stdout final
    = (pre ++
       [nl +:+ "💾 Full results saved to: " +:+ output_file_name (now env 1);
        nl +:+ "End Time: " +:+ strftime "%Y-%m-%d %H:%M:%S" (now env 3);
        str_mul "=" 80;
        confirmation])%list.
Proof.
  intros V C. revert V C.
  by_course; intros V C Hlog O; try (open_got; congruence);
    unroll_in Hlog; try discriminate Hlog.
  - match goal with H : open_raises _ _ = Some _ |- _ => unroll_in H end.
    congruence.
  - split; [unroll; reflexivity|].
    exists (stdout (st_review r a b l v) ++ summary_console r a b l v)%list.
    unfold summary_done, set_stdout, set_files, set_clock_reads.
    cbn [snd stdout]. rewrite <- !app_assoc. reflexivity.
Qed.

(** ** The name of the output file *)

Lemma append_inv_length (a a' b b' : string) :
  String.length a = String.length a' ->
  a +:+ b = a' +:+ b' -> a = a' /\ b = b'.
Proof.
  revert a'. induction a as [|x a IH]; intros [|x' a'] Hlen Heq;
    try discriminate Hlen.
  - split; [reflexivity|exact Heq].
  - rewrite !append_cons in Heq. injection Heq as -> Heq.
    injection Hlen as Hlen. destruct (IH a' Hlen Heq) as [-> ->].
    split; reflexivity.
Qed.

Lemma digit_inv (n m : nat) : digit n = digit m -> n mod 10 = m mod 10.
Proof.
  unfold digit. intros H.
  assert (Hn : n mod 10 < 10) by (apply Nat.mod_upper_bound; discriminate).
  assert (Hm : m mod 10 < 10) by (apply Nat.mod_upper_bound; discriminate).
  assert (E : ascii_of_nat (48 + n mod 10) = ascii_of_nat (48 + m mod 10))
    by congruence.
  apply (f_equal nat_of_ascii) in E.
  rewrite !nat_ascii_embedding in E by lia. lia.
Qed.

Lemma zero_padded_inv (w : nat) : forall n m,
  zero_padded w n = zero_padded w m -> n mod 10 ^ w = m mod 10 ^ w.
Proof.
  induction w as [|w IH]; intros n m H.
  - rewrite !Nat.pow_0_r, !Nat.mod_1_r. reflexivity.
  - cbn [zero_padded] in H.
    apply append_inv_length in H as [H1 H2];
      [|rewrite !length_zero_padded; reflexivity].
    apply IH in H1. apply digit_inv in H2.
    rewrite Nat.pow_succ_r', !Nat.Div0.mod_mul_r. rewrite H1, H2. reflexivity.
Qed.

Lemma zero_padded_inj (w n m : nat) :
  n < 10 ^ w -> m < 10 ^ w -> zero_padded w n = zero_padded w m -> n = m.
Proof.
  intros Hn Hm H. apply zero_padded_inv in H.
  rewrite !Nat.mod_small in H by assumption. exact H.
Qed.

(** X10. Two moments within the ranges of a datetime that get the same
    output file name are the same moment to the second: runs at different
    seconds never write the same file, and runs within one second do. *)
Theorem output_file_name_inj t1 t2 :
  valid_datetime t1 -> valid_datetime t2 ->
  output_file_name t1 = output_file_name t2 <-> t1 = t2.
Proof.
  intros (Hy1 & Hm1 & Hd1 & Hh1 & Hi1 & Hs1) (Hy2 & Hm2 & Hd2 & Hh2 & Hi2 & Hs2).
  split; [|intros ->; reflexivity].
  intros H.
  change (output_file_name t1)
    with ("workflow_outputs_" +:+ stamp t1 +:+ ".txt") in H.
  change (output_file_name t2)
    with ("workflow_outputs_" +:+ stamp t2 +:+ ".txt") in H.
  apply append_inv_length in H as [_ H]; [|reflexivity].
  unfold stamp in H. rewrite !append_assoc in H.
  apply append_inv_length in H as [Ey H];
    [|rewrite !length_zero_padded; reflexivity].
  apply append_inv_length in H as [Em H];
    [|rewrite !length_zero_padded; reflexivity].
  apply append_inv_length in H as [Ed H];
    [|rewrite !length_zero_padded; reflexivity].
  apply append_inv_length in H as [_ H]; [|reflexivity].
  apply append_inv_length in H as [Eh H];
    [|rewrite !length_zero_padded; reflexivity].
  apply append_inv_length in H as [Ei H];
    [|rewrite !length_zero_padded; reflexivity].
  apply append_inv_length in H as [Es _];
    [|rewrite !length_zero_padded; reflexivity].
  assert (P2 : 10 ^ 2 = 100) by reflexivity.
  apply zero_padded_inj in Ey; [|lia|lia].
  apply zero_padded_inj in Em; [|lia|lia].
  apply zero_padded_inj in Ed; [|lia|lia].
  apply zero_padded_inj in Eh; [|lia|lia].
  apply zero_padded_inj in Ei; [|lia|lia].
  apply zero_padded_inj in Es; [|lia|lia].
  destruct t1, t2. cbn [year month day hour minute second] in *.
  subst. reflexivity.
Qed.

(** ** What a request is made of, and where exceptions come from *)

Ltac same_request Hm :=
  unfold phase_result;
  repeat match goal with
         | |- context [remote ?e ?c ?h ?r] => destruct (remote e c h r)
         end;
  unfold phase_done, phase_failed, set_stdout, set_outputs, set_calls,
    request_of;
  cbn [snd calls]; rewrite !last_snoc; cbn [fmap option_fmap option_map fst];
  rewrite Hm; (split; [reflexivity|eauto]).

(** X11. The request of a phase is made of the model of the object and of
    the outputs the phase reads, and of nothing else in the state: two
    states with the same model that agree under these names get the same
    request logged, whatever else they store. *)
Theorem request_depends_on_needs p st1 st2 :
  model st1 = model st2 ->
  Forall (fun k => outputs st1 !! k = outputs st2 !! k) (phase_needs p) ->
  first_missing (outputs st1) (phase_needs p) = None ->
  fst <$> last (calls (snd (phase_method p st1)))
  = fst <$> last (calls (snd (phase_method p st2))) /\
  is_Some (last (calls (snd (phase_method p st1)))).
Proof.
  intros Hm Hsame Hnone.
  destruct p; cbn [phase_needs first_missing] in *; cbn [phase_method].
  - rewrite !phase_research_eq. same_request Hm.
  - apply Forall_cons in Hsame as [E _].
    destruct (outputs st1 !! "research") eqn:E1; [|discriminate Hnone].
    rewrite (phase_analysis_eq st1 _ E1).
    rewrite (phase_analysis_eq st2 _ (eq_sym E)). same_request Hm.
  - apply Forall_cons in Hsame as [E _].
    destruct (outputs st1 !! "analysis") eqn:E1; [|discriminate Hnone].
    rewrite (phase_blueprint_eq st1 _ E1).
    rewrite (phase_blueprint_eq st2 _ (eq_sym E)). same_request Hm.
  - apply Forall_cons in Hsame as [E _].
    destruct (outputs st1 !! "blueprint") eqn:E1; [|discriminate Hnone].
    rewrite (phase_launch_eq st1 _ E1).
    rewrite (phase_launch_eq st2 _ (eq_sym E)). same_request Hm.
  - apply Forall_cons in Hsame as [Eb Hsame].
    apply Forall_cons in Hsame as [El _].
    destruct (outputs st1 !! "blueprint") eqn:E1; [|discriminate Hnone].
    destruct (outputs st1 !! "launch") eqn:E2; [|discriminate Hnone].
    rewrite (phase_review_eq st1 _ _ E1 E2).
    rewrite (phase_review_eq st2 _ _ (eq_sym Eb) (eq_sym El)).
    same_request Hm.
Qed.


End Workflow.

(** * The properties on sample runs *)

(** C1 on the stubbed run: the second call is the analysis call, and its
    user message contains the stored research output. *)
Lemma context_passing_stubbed :
  calls (final stub_env no_files) !! 1
  = Some (sample_analysis_request, Completion "A") /\
  system_content sample_analysis_request = system_prompts !! 1 /\
  exists r u,
    outputs (final stub_env no_files) !! "research" = Some r /\
    user_content sample_analysis_request = Some u /\ contains r u.
Proof.
  split; [vm_compute; reflexivity|].
  apply (context_passing stub_env no_files 1 sample_analysis_request
           (Completion "A")).
  vm_compute. reflexivity.
Defined.

(** C2 on the stubbed run. *)
Lemma five_phases_in_order_stubbed :
  snd (validate_setup stub_env) = true /\
  OpenAI_raises stub_env (API_KEY (cfg stub_env)) (API_BASE (cfg stub_env))
  = None /\
  forallb (fun c => succeeded (snd c)) (calls (final stub_env no_files))
  = true /\
  (fun c => system_content (fst c)) <$> calls (final stub_env no_files)
  = Some <$> system_prompts /\
  size (outputs (final stub_env no_files)) = 5.
Proof.
  assert (H1 : snd (validate_setup stub_env) = true) by reflexivity.
  assert (H2 : OpenAI_raises stub_env (API_KEY (cfg stub_env))
                 (API_BASE (cfg stub_env)) = None) by reflexivity.
  assert (H3 : forallb (fun c => succeeded (snd c))
                 (calls (final stub_env no_files)) = true)
    by (vm_compute; reflexivity).
  destruct (five_phases_in_order stub_env no_files H1 H2 H3)
    as (Hcalls & _ & Hsize & _).
  repeat split; assumption.
Defined.

(** C3 on the run whose third call raises. *)
Lemma remote_failure_leaves_no_file_flaky :
  calls (final flaky_env no_files) !! 2
  = Some (sample_blueprint_request,
          Raises "APIConnectionError" "Connection error.") /\
  files (final flaky_env no_files) = no_files /\
  length (calls (final flaky_env no_files)) = 3 /\
  size (outputs (final flaky_env no_files)) = 2.
Proof.
  assert (H : calls (final flaky_env no_files) !! 2
              = Some (sample_blueprint_request,
                      Raises "APIConnectionError" "Connection error."))
    by (vm_compute; reflexivity).
  split; [exact H|].
  exact (proj1 (remote_failure_leaves_no_file flaky_env no_files) 2 _ _ _ H).
Defined.

(** C4 on the stubbed run: the sections of the file hold R, A, B, L, V
    under the titles of the five phases in order. *)
Lemma phase_texts_round_trip_stubbed :
  snd (validate_setup stub_env) = true /\
  OpenAI_raises stub_env (API_KEY (cfg stub_env)) (API_BASE (cfg stub_env))
  = None /\
  forallb (fun c => succeeded (snd c)) (calls (final stub_env no_files))
  = true /\
  open_raises stub_env (output_file_name (now stub_env 1)) = None /\
  files (final stub_env no_files) !! "workflow_outputs_20250307_090502.txt"
  = Some (file_header "2025-03-07 09:05:04" "gpt-4o-mini"
          +:+ file_section "PHASE 1: MARKET RESEARCH" "R"
          +:+ file_section "PHASE 2: OPPORTUNITY ANALYSIS" "A"
          +:+ file_section "PHASE 3: PRODUCT BLUEPRINT" "B"
          +:+ file_section "PHASE 4: GO-TO-MARKET STRATEGY" "L"
          +:+ file_section "PHASE 5: STRATEGIC REVIEW" "V") /\
  stored_texts (final stub_env no_files) = ["R"; "A"; "B"; "L"; "V"].
Proof.
  assert (H1 : snd (validate_setup stub_env) = true) by reflexivity.
  assert (H2 : OpenAI_raises stub_env (API_KEY (cfg stub_env))
                 (API_BASE (cfg stub_env)) = None) by reflexivity.
  assert (H3 : forallb (fun c => succeeded (snd c))
                 (calls (final stub_env no_files)) = true)
    by (vm_compute; reflexivity).
  assert (H4 : open_raises stub_env (output_file_name (now stub_env 1))
               = None) by reflexivity.
  destruct (phase_texts_round_trip stub_env no_files H1 H2 H3 H4)
    as (Hfile & _ & _ & _).
  refine (conj H1 (conj H2 (conj H3 (conj H4 (conj _ _))))).
  - vm_compute in Hfile. vm_compute. exact Hfile.
  - vm_compute. reflexivity.
Defined.

(** C5 on the run whose configuration does not validate. *)
Lemma invalid_config_makes_no_call_sample :
  snd (validate_setup invalid_env) = false /\
  calls (final invalid_env no_files) = [] /\
  stdout (final invalid_env no_files)
  = ["OPENAI_API_KEY is not set"; "ERROR: Configuration validation failed!"] /\
  clock_reads (final invalid_env no_files) = 0.
Proof.
  split; [reflexivity|].
  exact (invalid_config_makes_no_call invalid_env no_files eq_refl).
Defined.

(** C6 as the specification words it fails on the run whose third call
    raises: the error is reported and the exit status is 0. *)
Lemma exit_behaviour_as_specified_fails :
  ~ exit_behaviour_as_specified flaky_env no_files.
Proof.
  unfold exit_behaviour_as_specified. intros H. vm_compute in H.
  destruct H as (_ & _ & H). apply H. reflexivity.
Qed.

(** C7 on the stubbed run. *)
Lemma output_file_layout_stubbed :
  snd (validate_setup stub_env) = true /\
  OpenAI_raises stub_env (API_KEY (cfg stub_env)) (API_BASE (cfg stub_env))
  = None /\
  forallb (fun c => succeeded (snd c)) (calls (final stub_env no_files))
  = true /\
  open_raises stub_env (output_file_name (now stub_env 1)) = None /\
  output_file_name (now stub_env 1) = "workflow_outputs_20250307_090502.txt" /\
  String.length (stamp (now stub_env 1)) = 15 /\
  dom (files (final stub_env no_files))
  = {[ "workflow_outputs_20250307_090502.txt" ]}.
Proof.
  assert (H1 : snd (validate_setup stub_env) = true) by reflexivity.
  assert (H2 : OpenAI_raises stub_env (API_KEY (cfg stub_env))
                 (API_BASE (cfg stub_env)) = None) by reflexivity.
  assert (H3 : forallb (fun c => succeeded (snd c))
                 (calls (final stub_env no_files)) = true)
    by (vm_compute; reflexivity).
  assert (H4 : open_raises stub_env (output_file_name (now stub_env 1))
               = None) by reflexivity.
  destruct (output_file_layout stub_env no_files H1 H2 H3 H4)
    as ((r & a & b & l & v & _ & Hfiles) & Hname & Hlen).
  refine (conj H1 (conj H2 (conj H3 (conj H4 (conj _ (conj Hlen _)))))).
  - rewrite Hname. vm_compute. reflexivity.
  - rewrite Hfiles. unfold no_files.
    rewrite dom_insert_L, dom_empty_L, Hname, (right_id_L ∅ (∪)).
    vm_compute. reflexivity.
Defined.

(** C8 on the stubbed run: after research, the analysis phase leaves the
    research entry as it is, and nothing is stored yet under its own name. *)
Lemma outputs_written_once_stubbed :
  let st1 := snd (call_in_turn stub_env [Research] (boot no_files)) in
  "research" <> phase_name Analysis /\
  all_phases = ([Research] ++ Analysis :: [Blueprint; Launch; Review])%list /\
  outputs (boot no_files) = ∅ /\
  call_in_turn stub_env [Research] (boot no_files) = (Ok tt, st1) /\
  outputs (snd (phase_method stub_env Analysis st1)) !! "research"
  = outputs st1 !! "research" /\
  outputs st1 !! phase_name Analysis = None.
Proof.
  intros st1.
  assert (Hne : "research" <> phase_name Analysis) by discriminate.
  assert (Hrun : call_in_turn stub_env [Research] (boot no_files)
                 = (Ok tt, st1)) by (vm_compute; reflexivity).
  destruct (outputs_written_once stub_env no_files)
    as (Hothers & _ & _ & Hfresh & _).
  refine (conj Hne (conj eq_refl (conj eq_refl (conj Hrun (conj _ _))))).
  - exact (Hothers Analysis st1 "research" Hne).
  - exact (Hfresh [Research] Analysis [Blueprint; Launch; Review]
             (boot no_files) st1 eq_refl eq_refl Hrun).
Defined.

(** C10 on the run whose configuration does not validate and on the run
    whose third call raises. *)
Lemma config_failure_bypasses_handler_sample :
  snd (validate_setup invalid_env) = false /\
  exit_status invalid_env no_files = 1%Z /\
  stderr (final invalid_env no_files) = [] /\
  calls (final flaky_env no_files) !! 2
  = Some (sample_blueprint_request,
          Raises "APIConnectionError" "Connection error.") /\
  exit_status flaky_env no_files = 0%Z /\
  stderr (final flaky_env no_files)
  = [Traceback (PyException "APIConnectionError" "Connection error.")].
Proof.
  assert (H : calls (final flaky_env no_files) !! 2
              = Some (sample_blueprint_request,
                      Raises "APIConnectionError" "Connection error."))
    by (vm_compute; reflexivity).
  destruct (config_failure_bypasses_handler invalid_env no_files)
    as (Hinvalid & _).
  destruct (Hinvalid eq_refl) as (_ & Hstatus & _ & Hstderr).
  destruct (config_failure_bypasses_handler flaky_env no_files)
    as (_ & Hflaky).
  destruct (Hflaky 2 _ _ _ H) as (_ & Htrace).
  exact (conj eq_refl (conj Hstatus (conj Hstderr
           (conj H (conj eq_refl Htrace))))).
Defined.

(** * The further properties on sample states and runs *)

(** X1 on the review phase called when only research and analysis are
    stored. *)
Lemma phase_out_of_turn_sample :
  first_missing (outputs two_outputs) (phase_needs Review) = Some "blueprint" /\
  fst (phase_method stub_env Review two_outputs)
  = Raise (key_error "blueprint") /\
  calls (snd (phase_method stub_env Review two_outputs)) = [].
Proof.
  assert (H : first_missing (outputs two_outputs) (phase_needs Review)
              = Some "blueprint") by (vm_compute; reflexivity).
  destruct (phase_out_of_turn stub_env Review two_outputs "blueprint" H)
    as (Hres & Hcalls & _).
  exact (conj H (conj Hres Hcalls)).
Defined.

(** X2 on the blueprint phase called when research and analysis are
    stored: the stub answers R to a first call. *)
Lemma phase_stores_its_reply_sample :
  first_missing (outputs two_outputs) (phase_needs Blueprint) = None /\
  outputs (snd (phase_method stub_env Blueprint two_outputs)) !! "blueprint"
  = Some "R".
Proof.
  assert (H : first_missing (outputs two_outputs) (phase_needs Blueprint)
              = None) by (vm_compute; reflexivity).
  split; [exact H|].
  destruct (phase_stores_its_reply stub_env Blueprint two_outputs H)
    as (req & _ & _ & _ & Hreply).
  change (remote stub_env (client two_outputs) (calls two_outputs) req)
    with (Completion "R") in Hreply.
  destruct Hreply as (_ & Hstored & _).
  rewrite Hstored. apply lookup_insert_eq.
Defined.

(** X4 on the summary asked for when only research and analysis are
    stored. *)
Lemma summary_needs_every_output_sample :
  first_missing (outputs two_outputs) phase_names = Some "blueprint" /\
  fst (print_summary stub_env two_outputs) = Raise (key_error "blueprint") /\
  files (snd (print_summary stub_env two_outputs)) = no_files.
Proof.
  assert (H : first_missing (outputs two_outputs) phase_names
              = Some "blueprint") by (vm_compute; reflexivity).
  destruct (summary_needs_every_output stub_env two_outputs "blueprint" H)
    as (Hres & Hfiles & _).
  exact (conj H (conj Hres Hfiles)).
Defined.

(** X5 on the summary of five stored outputs beside an earlier file. *)
Lemma summary_writes_one_file_sample :
  first_missing (outputs five_outputs) phase_names = None /\
  fst (print_summary stub_env five_outputs) = Ok tt /\
  files (snd (print_summary stub_env five_outputs)) !! "notes.txt"
  = Some "kept" /\
  size (files (snd (print_summary stub_env five_outputs))) = 2.
Proof.
  assert (H : first_missing (outputs five_outputs) phase_names = None)
    by (vm_compute; reflexivity).
  split; [exact H|].
  destruct (summary_writes_one_file stub_env five_outputs H)
    as (_ & _ & Hopen).
  change (open_raises stub_env
            (output_file_name (now stub_env (clock_reads five_outputs))))
    with (@None (string * string)) in Hopen.
  destruct Hopen as (Hres & Hfiles & _).
  split; [exact Hres|]. rewrite Hfiles. split; vm_compute; reflexivity.
Defined.

(** X6 on the run whose file cannot be opened. *)
Lemma unopened_file_is_reported_sample :
  snd (validate_setup readonly_env) = true /\
  OpenAI_raises readonly_env (API_KEY (cfg readonly_env))
    (API_BASE (cfg readonly_env)) = None /\
  forallb (fun c => succeeded (snd c)) (calls (final readonly_env no_files))
  = true /\
  open_raises readonly_env (output_file_name (now readonly_env 1))
  = Some ("PermissionError", "[Errno 13] Permission denied") /\
  files (final readonly_env no_files) = no_files /\
  exit_status readonly_env no_files = 0%Z /\
  clock_reads (final readonly_env no_files) = 2.
Proof.
  assert (H1 : snd (validate_setup readonly_env) = true) by reflexivity.
  assert (H2 : OpenAI_raises readonly_env (API_KEY (cfg readonly_env))
                 (API_BASE (cfg readonly_env)) = None) by reflexivity.
  assert (H3 : forallb (fun c => succeeded (snd c))
                 (calls (final readonly_env no_files)) = true)
    by (vm_compute; reflexivity).
  assert (H4 : open_raises readonly_env
                 (output_file_name (now readonly_env 1))
               = Some ("PermissionError", "[Errno 13] Permission denied"))
    by reflexivity.
  destruct (unopened_file_is_reported readonly_env no_files _ _ H1 H2 H3 H4)
    as (Hfiles & _ & _ & _ & Hstatus & Hclock).
  exact (conj H1 (conj H2 (conj H3 (conj H4
           (conj Hfiles (conj Hstatus Hclock)))))).
Defined.

(** X7 on the run whose client cannot be built. *)
Lemma client_failure_is_reported_sample :
  snd (validate_setup no_client_env) = true /\
  OpenAI_raises no_client_env (API_KEY (cfg no_client_env))
    (API_BASE (cfg no_client_env))
  = Some ("OpenAIError", "The api_key client option must be set") /\
  calls (final no_client_env no_files) = [] /\
  exit_status no_client_env no_files = 0%Z.
Proof.
  assert (H1 : snd (validate_setup no_client_env) = true) by reflexivity.
  assert (H2 : OpenAI_raises no_client_env (API_KEY (cfg no_client_env))
                 (API_BASE (cfg no_client_env))
               = Some ("OpenAIError", "The api_key client option must be set"))
    by reflexivity.
  destruct (client_failure_is_reported no_client_env no_files _ _ H1 H2)
    as (_ & _ & Hcalls & _ & _ & Hstatus).
  exact (conj H1 (conj H2 (conj Hcalls Hstatus))).
Defined.

(** X9 on the stubbed run. *)
Lemma completed_run_ends_with_stubbed :
  snd (validate_setup stub_env) = true /\
  OpenAI_raises stub_env (API_KEY (cfg stub_env)) (API_BASE (cfg stub_env))
  = None /\
  forallb (fun c => succeeded (snd c)) (calls (final stub_env no_files))
  = true /\
  open_raises stub_env (output_file_name (now stub_env 1)) = None /\
  clock_reads (final stub_env no_files) = 4 /\
  last (stdout (final stub_env no_files)) = Some confirmation.
Proof.
  assert (H1 : snd (validate_setup stub_env) = true) by reflexivity.
  assert (H2 : OpenAI_raises stub_env (API_KEY (cfg stub_env))
                 (API_BASE (cfg stub_env)) = None) by reflexivity.
  assert (H3 : forallb (fun c => succeeded (snd c))
                 (calls (final stub_env no_files)) = true)
    by (vm_compute; reflexivity).
  assert (H4 : open_raises stub_env (output_file_name (now stub_env 1))
               = None) by reflexivity.
  destruct (completed_run_ends_with stub_env no_files H1 H2 H3 H4)
    as (Hclock & pre & Hout).
  refine (conj H1 (conj H2 (conj H3 (conj H4 (conj Hclock _))))).
  rewrite Hout.
  change [nl +:+ "💾 Full results saved to: "
            +:+ output_file_name (now stub_env 1);
          nl +:+ "End Time: "
            +:+ strftime "%Y-%m-%d %H:%M:%S" (now stub_env 3);
          str_mul "=" 80; confirmation]
    with ([nl +:+ "💾 Full results saved to: "
             +:+ output_file_name (now stub_env 1);
           nl +:+ "End Time: "
             +:+ strftime "%Y-%m-%d %H:%M:%S" (now stub_env 3);
           str_mul "=" 80] ++ [confirmation])%list.
  rewrite app_assoc. apply last_snoc.
Defined.

(** X10 on two readings of the sample clock, two seconds apart. *)
Lemma output_file_name_inj_sample :
  valid_datetime (sample_now 1) /\ valid_datetime (sample_now 2) /\
  (output_file_name (sample_now 1) = output_file_name (sample_now 2)
   <-> sample_now 1 = sample_now 2).
Proof.
  assert (H1 : valid_datetime (sample_now 1)).
  { unfold valid_datetime, sample_now.
    cbn [year month day hour minute second].
    repeat split; (apply Nat.leb_le || apply Nat.ltb_lt); reflexivity. }
  assert (H2 : valid_datetime (sample_now 2)).
  { unfold valid_datetime, sample_now.
    cbn [year month day hour minute second].
    repeat split; (apply Nat.leb_le || apply Nat.ltb_lt); reflexivity. }
  exact (conj H1 (conj H2 (output_file_name_inj _ _ H1 H2))).
Defined.

(** X11 on the launch phase, with five outputs stored and with the
    blueprint alone. *)
Lemma request_depends_on_needs_sample :
  model five_outputs = model blueprint_only /\
  Forall (fun k => outputs five_outputs !! k = outputs blueprint_only !! k)
    (phase_needs Launch) /\
  first_missing (outputs five_outputs) (phase_needs Launch) = None /\
  fst <$> last (calls (snd (phase_method stub_env Launch five_outputs)))
  = fst <$> last (calls (snd (phase_method stub_env Launch blueprint_only))).
Proof.
  assert (H1 : model five_outputs = model blueprint_only) by reflexivity.
  assert (H2 : Forall
                 (fun k => outputs five_outputs !! k
                           = outputs blueprint_only !! k)
                 (phase_needs Launch)).
  { apply Forall_cons. split; [vm_compute; reflexivity|apply Forall_nil_2]. }
  assert (H3 : first_missing (outputs five_outputs) (phase_needs Launch)
               = None) by (vm_compute; reflexivity).
  destruct (request_depends_on_needs stub_env Launch _ _ H1 H2 H3)
    as (Hsame & _).
  exact (conj H1 (conj H2 (conj H3 Hsame))).
Defined.
